(** * svelte-view-engine: the Page life cycle and the page registry

    A shallow embedding of [src/Page.js] (class Page: [init], [build],
    [heartbeat], [render] and the watcher's change handler) and of
    [src/engine.js] (the registry's [render]), with the properties of the
    specification stated over it.

    JavaScript values are a small tree type, objects are lists of fields in
    insertion order, asynchronous methods are run to completion in a state and
    error monad over the page's world, and [setTimeout]/[clearTimeout] are a
    queue of pending timers over a logical clock in milliseconds. *)

From Stdlib Require Import String Ascii NArith ZArith List Bool DecimalString.
From stdpp Require Import base option list strings gmap.

Set Warnings "-register-all".
Local Open Scope N_scope.

(** ** JavaScript values *)

Module JS.

(** What a [throw] carries.  [TypeError] is what the runtime raises on a
    property read of [undefined] or [null] and on a call of a non-function;
    [Thrown] is any other failure (a read or parse error, a failing build
    script, an exception of the SSR code). *)
Inductive error : Type :=
| TypeError (msg : string)
| Thrown (msg : string).

Inductive result (A : Type) : Type :=
| Ok (a : A)
| Throw (e : error).
Arguments Ok {A} a.
Arguments Throw {A} e.

Definition and_then {A B} (r : result A) (k : A -> result B) : result B :=
  match r with
  | Ok a => k a
  | Throw e => Throw e
  end.

Notation "'let?' x ':=' r 'in' k" := (and_then r (fun x => k))
  (at level 10, x name, r at level 100, k at level 200).

(** Function values.  [HeadOnce] is the closure [__headOnce] that [render]
    creates; [Extern] is any function the caller passes in. *)
Inductive closure : Type :=
| HeadOnce
| Extern (tag : string).

(** Numbers are the integers among JavaScript's numbers: the code reads no
    number but the live-reload port. *)
Inductive value : Type :=
| VUndef
| VNull
| VBool (b : bool)
| VNum (n : Z)
| VStr (s : string)
| VArr (xs : list value)
| VObj (fields : list (string * value))
| VFun (f : closure).

(** An object: its own enumerable properties, in insertion order. *)
Definition obj : Type := list (string * value).

Definition truthy (v : value) : bool :=
  match v with
  | VUndef | VNull => false
  | VBool b => b
  | VNum n => negb (n =? 0)%Z
  | VStr s => negb (String.eqb s "")
  | VArr _ | VObj _ | VFun _ => true
  end.

Fixpoint has (k : string) (o : obj) : bool :=
  match o with
  | [] => false
  | (k', _) :: o' => if String.eqb k k' then true else has k o'
  end.

(** [o[k]] on an object: [undefined] when [k] is not a property. *)
Fixpoint get (k : string) (o : obj) : value :=
  match o with
  | [] => VUndef
  | (k', v) :: o' => if String.eqb k k' then v else get k o'
  end.

(** [o[k] = v]: an existing property keeps its place. *)
Fixpoint set (k : string) (v : value) (o : obj) : obj :=
  match o with
  | [] => [(k, v)]
  | (k', v') :: o' =>
      if String.eqb k k' then (k, v) :: o' else (k', v') :: set k v o'
  end.

Definition keys (o : obj) : list string := map fst o.

(** [{...base, ...src}]: every own key of [src], in order, is read from
    [src] and written to the result. *)
Definition spread (base src : obj) : obj :=
  fold_left (fun acc k => set k (get k src) acc) (keys src) base.

(** [v.k] and [let {k} = v].  Reading a property of [undefined] or [null]
    throws; a primitive, an array or a function has none of the names the
    code reads ([client], [server], [hashes], [component], [watchFiles],
    [js], [css], [code], [_rebuild]), so the read gives [undefined]. *)
Definition get_prop (v : value) (k : string) : result value :=
  match v with
  | VUndef =>
      Throw (TypeError ("Cannot read properties of undefined (reading '" +:+ k +:+ "')"))
  | VNull =>
      Throw (TypeError ("Cannot read properties of null (reading '" +:+ k +:+ "')"))
  | VObj o => Ok (get k o)
  | _ => Ok VUndef
  end.

(** [a || b] *)
Definition or_else (a b : value) : value := if truthy a then a else b.

(** [v === "s"] *)
Definition is_string (v : value) (s : string) : bool :=
  match v with
  | VStr s' => String.eqb s' s
  | _ => false
  end.

(** [s.replace(/\\/g, "\\\\")]: every backslash is doubled. *)
Fixpoint double_backslashes (s : string) : string :=
  match s with
  | EmptyString => EmptyString
  | String c s' =>
      if Ascii.eqb c "\"%char
      then String c (String c (double_backslashes s'))
      else String c (double_backslashes s')
  end.

(** A number in a template literal. *)
Definition decimal (n : N) : string := NilEmpty.string_of_uint (N.to_uint n).

End JS.

(** ** Page.js *)

Module Page.
Import JS.

(** *** The page and its world *)

(** What [module.render(locals)] of the SSR code gives back. *)
Record rendered : Type := { r_head : string; r_html : string }.

Definition renderer : Type := obj -> result rendered.

(** A loaded SSR module: it may expose the component as its [default] export
    or be the component itself. *)
Inductive component : Type :=
| Component (render_fn : option renderer).

Record ssr_module : Type := {
  default_export : option component;
  own_render : option renderer;
}.

(** The fields of [config] that Page.js reads in [init] and [render].  The
    pre-render hook is called on the context object and may change it in
    place, and return or throw: it gives how the call ended and the
    context as it left it; its return value is not used. *)
Record Config : Type := {
  config_watch : bool;
  config_liveReload : bool;
  config_env : value;
  config_payloadFormat : value;
  config_prerender : option (obj -> result unit * obj);
}.

(** [engine.liveReload]: the port and the connected clients of the socket. *)
Record LiveReload : Type := {
  port : N;
  clients : list nat;
}.

(** What the constructor derives once from the engine and the path. *)
Record PageInfo : Type := {
  path : string;
  relativePath : string;
  name : string;
  jsPath : string;
  cssPath : string;
  config : Config;
  liveReload : option LiveReload;
}.

Record Page : Type := {
  info : PageInfo;
  ready : bool;
  active : bool;
  idleTimer : option nat;
  serverComponent : value;
  clientComponent : value;
  hashes : value;
  ssrModule : option ssr_module;
  watcher : option value;
}.

(** [new Page(engine, path)]: only [ready] and [active] are initialised. *)
Definition new_Page (i : PageInfo) : Page :=
  {| info := i; ready := false; active := false; idleTimer := None;
     serverComponent := VUndef; clientComponent := VUndef; hashes := VUndef;
     ssrModule := None; watcher := None |}.

(** The artifact file as [readJson] finds it. *)
Inductive file : Type :=
| Unreadable (e : error)
| Json (v : value).

Inductive job : Type :=
| IdleExpire
| ChangeResume.

Record timer : Type := { tid : nat; due : N; callback : job }.

(** Calls that leave the page, in the order they are made. *)
Inductive event : Type :=
| EvBuildScript
| EvSchedulerBuild (priority : bool)
| EvScheduleBuild (priority : bool)
| EvDeleteArtifact
| EvWatcherClose
| EvWatch (files : value)
| EvClientSend (client : nat) (message : string)
| EvWindowReload (url : string).

Record World : Type := {
  page : Page;
  buildFile : option file;
  now : N;
  timers : list timer;
  next_timer : nat;
  payload : option obj;
  windows : list string;
  log : list event;
}.

Definition with_page (f : Page -> Page) (w : World) : World :=
  {| page := f (page w); buildFile := buildFile w; now := now w;
     timers := timers w; next_timer := next_timer w; payload := payload w;
     windows := windows w; log := log w |}.

Definition set_buildFile (b : option file) (w : World) : World :=
  {| page := page w; buildFile := b; now := now w;
     timers := timers w; next_timer := next_timer w; payload := payload w;
     windows := windows w; log := log w |}.

Definition set_now (t : N) (w : World) : World :=
  {| page := page w; buildFile := buildFile w; now := t;
     timers := timers w; next_timer := next_timer w; payload := payload w;
     windows := windows w; log := log w |}.

Definition set_timers (ts : list timer) (n : nat) (w : World) : World :=
  {| page := page w; buildFile := buildFile w; now := now w;
     timers := ts; next_timer := n; payload := payload w;
     windows := windows w; log := log w |}.

Definition set_payload (o : obj) (w : World) : World :=
  {| page := page w; buildFile := buildFile w; now := now w;
     timers := timers w; next_timer := next_timer w; payload := Some o;
     windows := windows w; log := log w |}.

Definition add_event (e : event) (w : World) : World :=
  {| page := page w; buildFile := buildFile w; now := now w;
     timers := timers w; next_timer := next_timer w; payload := payload w;
     windows := windows w; log := log w ++ [e] |}.

Definition set_ready (b : bool) (p : Page) : Page :=
  {| info := info p; ready := b; active := active p; idleTimer := idleTimer p;
     serverComponent := serverComponent p; clientComponent := clientComponent p;
     hashes := hashes p; ssrModule := ssrModule p; watcher := watcher p |}.

Definition set_active (b : bool) (p : Page) : Page :=
  {| info := info p; ready := ready p; active := b; idleTimer := idleTimer p;
     serverComponent := serverComponent p; clientComponent := clientComponent p;
     hashes := hashes p; ssrModule := ssrModule p; watcher := watcher p |}.

Definition set_idleTimer (t : option nat) (p : Page) : Page :=
  {| info := info p; ready := ready p; active := active p; idleTimer := t;
     serverComponent := serverComponent p; clientComponent := clientComponent p;
     hashes := hashes p; ssrModule := ssrModule p; watcher := watcher p |}.

Definition set_components (server client hs : value) (p : Page) : Page :=
  {| info := info p; ready := ready p; active := active p; idleTimer := idleTimer p;
     serverComponent := server; clientComponent := client;
     hashes := hs; ssrModule := ssrModule p; watcher := watcher p |}.

Definition set_ssrModule (m : ssr_module) (p : Page) : Page :=
  {| info := info p; ready := ready p; active := active p; idleTimer := idleTimer p;
     serverComponent := serverComponent p; clientComponent := clientComponent p;
     hashes := hashes p; ssrModule := Some m; watcher := watcher p |}.

Definition set_watcher (files : value) (p : Page) : Page :=
  {| info := info p; ready := ready p; active := active p; idleTimer := idleTimer p;
     serverComponent := serverComponent p; clientComponent := clientComponent p;
     hashes := hashes p; ssrModule := ssrModule p; watcher := Some files |}.

(** What [template.render] receives. *)
Record TemplateArgs : Type := {
  t_head : string;
  t_html : string;
  t_css : value;
  t_js : value;
  t_jsPath : string;
  t_cssPath : string;
  t_jsHash : value;
  t_cssHash : value;
  t_name : string;
  t_props : string;
}.

(** The collaborators of Page.js that are outside it: the scheduler, the
    build script run by [cmd], the SSR module loader, the template, the
    platform test and the two library functions it calls. *)
Class Runtime : Type := {
  isElectron : bool;
  url_pathname : string -> string;
  JSON_stringify : obj -> string;
  instantiateSsrModule : value -> string -> result ssr_module;
  cmd : PageInfo -> option file -> result unit * option file;
  scheduler_build : bool -> World -> result unit * World;
  template_render : TemplateArgs -> result string;
}.

(** *** Running a method: state and exceptions *)

Definition M (A : Type) : Type := World -> result A * World.

Definition ret {A} (a : A) : M A := fun w => (Ok a, w).

Definition throw {A} (e : error) : M A := fun w => (Throw e, w).

Definition bind {A B} (m : M A) (k : A -> M B) : M B :=
  fun w =>
    match m w with
    | (Ok a, w') => k a w'
    | (Throw e, w') => (Throw e, w')
    end.

Definition try_catch {A} (m : M A) (handler : error -> M A) : M A :=
  fun w =>
    match m w with
    | (Ok a, w') => (Ok a, w')
    | (Throw e, w') => handler e w'
    end.

Definition lift {A} (r : result A) : M A := fun w => (r, w).

Definition gets {A} (f : World -> A) : M A := fun w => (Ok (f w), w).

Definition modify (f : World -> World) : M unit := fun w => (Ok tt, f w).

Definition emit (e : event) : M unit := modify (add_event e).

Definition when (b : bool) (m : M unit) : M unit := if b then m else ret tt.

Notation "'let*' x ':=' m 'in' k" := (bind m (fun x => k))
  (at level 10, x name, m at level 100, k at level 200).
Notation "m ';;' k" := (bind m (fun _ => k))
  (at level 100, k at level 200, right associativity).

Fixpoint for_each {A} (l : list A) (body : A -> M unit) : M unit :=
  match l with
  | [] => ret tt
  | x :: l' => body x ;; for_each l' body
  end.

(** *** Timers *)

Definition idleTimeout : N := 1000 * 15.

(** The pending timers are kept in the order they fire: by time due, and
    among equals by creation. *)
Fixpoint enqueue (t : timer) (ts : list timer) : list timer :=
  match ts with
  | [] => [t]
  | t' :: ts' =>
      if due t' <=? due t then t' :: enqueue t ts' else t :: t' :: ts'
  end.

Definition setTimeout (cb : job) (delay : N) : M nat :=
  fun w =>
    let id := next_timer w in
    let t := {| tid := id; due := now w + delay; callback := cb |} in
    (Ok id, set_timers (enqueue t (timers w)) (S id) w).

Definition clearTimeout (id : nat) : M unit :=
  modify (fun w =>
    set_timers (List.filter (fun t => negb (Nat.eqb (tid t) id)) (timers w))
               (next_timer w) w).

Definition is_idle (t : timer) : bool :=
  match callback t with
  | IdleExpire => true
  | ChangeResume => false
  end.

Definition is_resume (t : timer) : bool := negb (is_idle t).

(** The pending expiries of the idle timer. *)
Definition idle_timers (w : World) : list timer := List.filter is_idle (timers w).

(** [this.idleTimer] is the handle of the one pending idle timer, and is
    [null] when none is pending. *)
Definition idle_inv (w : World) : bool :=
  match idleTimer (page w), idle_timers w with
  | Some id, [t] => Nat.eqb (tid t) id
  | None, [] => true
  | _, _ => false
  end.

(** The expiry that a heartbeat in [w] starts. *)
Definition expiry_from (w : World) : timer :=
  {| tid := next_timer w; due := now w + idleTimeout; callback := IdleExpire |}.

(** The resumption that an inactive change notification in [w] starts. *)
Definition resume_from (w : World) : timer :=
  {| tid := next_timer w; due := now w + 100; callback := ChangeResume |}.

(** The events that ask for a build or run one. *)
Definition is_rebuild (e : event) : bool :=
  match e with
  | EvBuildScript | EvSchedulerBuild _ | EvScheduleBuild _ => true
  | _ => false
  end.

Definition rebuilds (w : World) : list event := List.filter is_rebuild (log w).

Section WithRuntime.
Context {rt : Runtime}.

(** *** heartbeat (Page.js 170-181) *)

(** The callback of the idle timer. *)
Definition idle_expired : M unit :=
  modify (with_page (set_active false)) ;;
  modify (with_page (set_idleTimer None)).

Definition heartbeat : M unit :=
  modify (with_page (set_active true)) ;;
  let* t := gets (fun w => idleTimer (page w)) in
  match t with
  | Some id => clearTimeout id
  | None => ret tt
  end ;;
  let* id := setTimeout IdleExpire idleTimeout in
  modify (with_page (set_idleTimer (Some id))).

(** The constructor's listener on the live-reload socket (Page.js 60-64). *)
Definition on_message (p : string) : M unit :=
  let* own := gets (fun w => path (info (page w))) in
  when (String.eqb p own) heartbeat.

(** *** The watcher's change handler (Page.js 135-144) *)

(** Modelled from the spec: [scheduler.scheduleBuild(page, priority)] of the
    scheduler, which is not among the sources; it accepts the request, and
    the build it leads to happens outside the handler. *)
Definition scheduleBuild (priority : bool) : M unit :=
  emit (EvScheduleBuild priority).

(** Line 143, which reads [this.active] when it runs. *)
Definition change_resume : M unit :=
  let* a := gets (fun w => active (page w)) in
  scheduleBuild a.

(** Modelled from the spec: [utils/sleep], not among the sources, is a fixed
    delay; [await sleep(100)] suspends the handler on a timer of 100 ms and
    the rest of the handler is that timer's callback. *)
Definition sleep_then (delay : N) (rest : job) : M unit :=
  setTimeout rest delay ;; ret tt.

Definition on_change : M unit :=
  modify (with_page (set_ready false)) ;;
  let* a := gets (fun w => active (page w)) in
  if negb isElectron && negb a
  then sleep_then 100 ChangeResume
  else change_resume.

(** *** The event loop *)

Definition run_job (j : job) : M unit :=
  match j with
  | IdleExpire => idle_expired
  | ChangeResume => change_resume
  end.

Definition exec (m : M unit) (w : World) : World := snd (m w).

(** The callbacks of the timers [ts] run in order, each at the time it was
    due. *)
Fixpoint fire (ts : list timer) (w : World) : World :=
  match ts with
  | [] => w
  | t :: ts' =>
      fire ts' (exec (run_job (callback t)) (set_now (N.max (now w) (due t)) w))
  end.

(** [d] milliseconds pass: every timer due by then leaves the queue and its
    callback runs.  No callback of this file starts or clears a timer. *)
Definition elapse (d : N) (w : World) : World :=
  let limit := now w + d in
  let is_due := fun t => due t <=? limit in
  let w' := set_timers (List.filter (fun t => negb (is_due t)) (timers w))
                       (next_timer w) w in
  set_now limit (fire (List.filter is_due (timers w)) w').

(** What can happen to a page between two method calls. *)
Inductive input : Type :=
| WsMessage (p : string)
| FileChange
| Elapse (ms : N).

Definition step (i : input) (w : World) : World :=
  match i with
  | WsMessage p =>
      match liveReload (info (page w)) with
      | Some _ => exec (on_message p) w
      | None => w
      end
  | FileChange =>
      match watcher (page w) with
      | Some _ => exec on_change w
      | None => w
      end
  | Elapse d => elapse d w
  end.

Definition run (inputs : list input) (w : World) : World :=
  fold_left (fun w i => step i w) inputs w.

(** *** init (Page.js 103-168) *)

Definition readJson : M value :=
  let* f := gets buildFile in
  match f with
  | Some (Json v) => ret v
  | Some (Unreadable e) => throw e
  | None => throw (Thrown "ENOENT")
  end.

(** [this.buildFile.deleteIfExists()]: started, not awaited.  The file
    is gone once the deletion has settled, and that is the world the
    caller of [init] is given here; a reader of the file in between is
    not modelled. *)
Definition deleteIfExists : M unit :=
  let* f := gets buildFile in
  match f with
  | Some _ => modify (set_buildFile None) ;; emit EvDeleteArtifact
  | None => ret tt
  end.

(** [this.scheduler.build(this, priority)]: the request, then whatever the
    scheduler does before its promise settles. *)
Definition call_scheduler_build (priority : bool) : M unit :=
  emit (EvSchedulerBuild priority) ;; scheduler_build priority.

(** Lines 146-164. *)
Definition notify_reload : M unit :=
  let* p := gets (fun w => info (page w)) in
  if isElectron then
    let* wins := gets windows in
    for_each wins (fun winUrl =>
      when (negb (String.eqb winUrl "")
            && String.eqb (url_pathname winUrl) (path p))
           (emit (EvWindowReload winUrl)))
  else
    match liveReload p with
    | None => throw (TypeError "Cannot read properties of undefined (reading 'socket')")
    | Some lr => for_each (clients lr) (fun c => emit (EvClientSend c (path p)))
    end.

(** Lines 109-121, the body of the [try]. *)
Definition load_artifact : M unit :=
  let* json := readJson in
  let* client := lift (get_prop json "client") in
  let* server := lift (get_prop json "server") in
  let* hs := lift (get_prop json "hashes") in
  modify (with_page (set_components server client (or_else hs (VObj [])))) ;;
  when (truthy server)
    (let* code := lift (get_prop server "component") in
     let* p := gets (fun w => path (info (page w))) in
     let* m := lift (instantiateSsrModule code p) in
     modify (with_page (set_ssrModule m))).

(** Lines 128-165. *)
Definition start_watching : M unit :=
  let* old := gets (fun w => watcher (page w)) in
  when (bool_decide (is_Some old)) (emit EvWatcherClose) ;;
  let* client := gets (fun w => clientComponent (page w)) in
  let* files := lift (get_prop client "watchFiles") in
  modify (with_page (set_watcher files)) ;;
  emit (EvWatch files) ;;
  let* cfg := gets (fun w => config (info (page w))) in
  when (config_liveReload cfg) notify_reload.

Definition init (priority : bool) : M unit :=
  let* f := gets buildFile in
  match f with
  | None => call_scheduler_build priority
  | Some _ =>
      try_catch load_artifact (fun e => deleteIfExists ;; throw e) ;;
      let* cfg := gets (fun w => config (info (page w))) in
      when (config_watch cfg) start_watching ;;
      modify (with_page (set_ready true))
  end.

(** *** build (Page.js 69-101); the console timer is left out *)

Definition runBuildScript : M unit :=
  emit EvBuildScript ;;
  fun w =>
    let '(r, f) := cmd (info (page w)) (buildFile w) in
    (r, set_buildFile f w).

Definition build : M unit :=
  runBuildScript ;; init false.

(** *** render (Page.js 183-300) *)

(** [__headOnce], over the flag [_head] it closes over: the answer and the
    flag afterwards. *)
Definition headOnce (_head : bool) : bool * bool :=
  if _head then (false, true) else (true, true).

(** Lines 194-206: the context handed to the SSR code. *)
Definition context (locals : obj) : obj :=
  spread [("__headOnce", VFun HeadOnce)] locals.

(** [this.ssrModule["default"] || this.ssrModule] *)
Definition pick (m : ssr_module) : component :=
  match default_export m with
  | Some c => c
  | None => Component (own_render m)
  end.

Definition call_render (c : component) (locals : obj) : result rendered :=
  match c with
  | Component (Some f) => f locals
  | Component None => Throw (TypeError "module.render is not a function")
  end.

(** Lines 225-237: [head], [html] and [css], from the page [p] as [this]. *)
Definition render_ssr (p : Page) (locals : obj) : result (string * string * value) :=
  if truthy (serverComponent p) then
    let? m :=
      match ssrModule p with
      | Some m => Ok m
      | None => Throw (TypeError "Cannot read properties of undefined (reading 'default')")
      end in
    let? r := call_render (pick m) locals in
    let? css :=
      if negb (is_string (config_env (config (info p))) "dev")
      then get_prop (serverComponent p) "css"
      else Ok (VStr "") in
    Ok (r_head r, r_html r, css)
  else Ok (EmptyString, EmptyString, VStr "").

Definition dq : string := String "034"%char EmptyString.
Definition nl : string := String "010"%char EmptyString.

Fixpoint tabs (n : nat) : string :=
  match n with
  | O => EmptyString
  | S n' => String "009"%char (tabs n')
  end.

Definition line (n : nat) (s : string) : string := tabs n +:+ s +:+ nl.

(** Lines 249-275: the script appended to [head]. *)
Definition liveReloadScript (port : N) (path : string) : string :=
  nl
  +:+ line 4 "<script>"
  +:+ line 5 "var socket;"
  +:+ line 5 ""
  +:+ line 5 "function createSocket() {"
  +:+ line 6 ("socket = new WebSocket(" +:+ dq +:+ "ws://" +:+ dq
              +:+ " + location.hostname + " +:+ dq +:+ ":" +:+ decimal port
              +:+ dq +:+ ");")
  +:+ line 6 ""
  +:+ line 6 ("socket.addEventListener(" +:+ dq +:+ "message" +:+ dq
              +:+ ", function(message) {")
  +:+ line 7 ("if (message.data === " +:+ dq +:+ path +:+ dq +:+ ") {")
  +:+ line 8 "location.reload();"
  +:+ line 7 "}"
  +:+ line 6 "});"
  +:+ line 6 ""
  +:+ line 6 ("socket.addEventListener(" +:+ dq +:+ "close" +:+ dq
              +:+ ", function() {")
  +:+ line 7 "setTimeout(createSocket, 500);"
  +:+ line 6 "});"
  +:+ line 5 "}"
  +:+ line 5 ""
  +:+ line 5 "function heartbeat() {"
  +:+ line 6 ("socket.send(" +:+ dq +:+ path +:+ dq +:+ ");")
  +:+ line 5 "}"
  +:+ line 5 ""
  +:+ line 5 "createSocket();"
  +:+ line 5 ""
  +:+ line 5 "setInterval(heartbeat, 1000);"
  +:+ line 4 "</script>"
  +:+ tabs 3.

(** What [render] returns from: the bare fragment, or the arguments of
    [template.render]. *)
Inductive target : Type :=
| Fragment (html : string)
| Document (args : TemplateArgs).

(** Lines 184-190. *)
Definition prepare (locals : obj) : M unit :=
  let* rebuild := lift (get_prop (VObj locals) "_rebuild") in
  when (truthy rebuild) build ;;
  let* rd := gets (fun w => ready (page w)) in
  when (negb rd) (init true).

(** Lines 225-298, up to the call of the template: they read the page
    [p] as [this] and the context, and change nothing. *)
Definition fill (p : Page) (locals : obj) (forEmail : bool) : result target :=
  let? ssr := render_ssr p locals in
  let '(head, html, css) := ssr in
  let? js := get_prop (clientComponent p) "js" in
  let json := JSON_stringify locals in
  let props :=
    if is_string (config_payloadFormat (config (info p))) "templateString"
    then "`" +:+ double_backslashes json +:+ "`"
    else json in
  let head :=
    match liveReload (info p) with
    | Some lr => head +:+ liveReloadScript (port lr) (path (info p))
    | None => head
    end in
  if forEmail then Ok (Fragment html)
  else
    let? css_code := get_prop css "code" in
    let? js_code := get_prop js "code" in
    let? jsHash := get_prop (hashes p) "js" in
    let? cssHash := get_prop (hashes p) "css" in
    Ok (Document
          {| t_head := head; t_html := html; t_css := css_code;
             t_js := js_code; t_jsPath := jsPath (info p);
             t_cssPath := cssPath (info p); t_jsHash := jsHash;
             t_cssHash := cssHash; t_name := name (info p);
             t_props := props |}).

(** Lines 192-216, then the lines above.  The payload slot and the
    pre-render hook hold the same context object: what the hook does to
    it shows in the slot, also when the hook then throws. *)
Definition compose (locals : obj) (forEmail : bool) : M target :=
  let locals := context locals in
  modify (set_payload locals) ;;
  let* cfg := gets (fun w => config (info (page w))) in
  let* locals :=
    match config_prerender cfg with
    | Some hook =>
        let '(r, locals) := hook locals in
        modify (set_payload locals) ;;
        lift r ;;
        ret locals
    | None => ret locals
    end in
  modify (set_payload locals) ;;
  let* p := gets page in
  lift (fill p locals forEmail).

Definition assemble (locals : obj) (forEmail : bool) : M target :=
  prepare locals ;; compose locals forEmail.

Definition render (locals : obj) (forEmail : bool) : M string :=
  let* t := assemble locals forEmail in
  match t with
  | Fragment html => ret html
  | Document args => lift (template_render args)
  end.

End WithRuntime.

End Page.

(** ** engine.js: the registry *)

Module Engine.
Import JS.

(** The default of [options.excludeLocals] (engine.js 20-24). *)
Definition excludeLocals_default : list string := ["_locals"; "settings"; "cache"].

(** Lines 71-77: the locals that are sent on. *)
Definition strip (excludeLocals : list string) (locals : obj) : obj :=
  fold_left
    (fun sendLocals p =>
       if existsb (String.eqb p) excludeLocals
       then sendLocals
       else set p (get p locals) sendLocals)
    (keys locals) [].

(** [callback(null, result)] and [callback(e)]. *)
Inductive cb_args : Type :=
| CbResult (res : string)
| CbError (e : error).

Section Registry.

(** The registry sees a page through its constructor and its [render]; a
    page is an object, so a render leaves the page in a new state.  The
    object [pages] is a finite map: its keys are absolute file paths, none
    of which names a property that every object inherits.  The constructor
    returns a page here; [Constructing.render] below is the same method
    with a constructor that may throw. *)
Context {PageT : Type}.
Variable createPage : string -> PageT.
Variable page_render : PageT -> obj -> result string * PageT.
Variable excludeLocals : list string.

(** What a call of the registry's [render] leaves: what it returned or
    threw, the calls of the callback, and the registry. *)
Record outcome : Type := {
  returned : result (option string);
  calls : list cb_args;
  pages : gmap string PageT;
}.

(** Lines 91-99, the [catch]. *)
Definition on_failure (path : string) (callback : option (cb_args -> result unit))
    (e : error) (made : list cb_args) (pages1 : gmap string PageT) : outcome :=
  let pages2 := delete path pages1 in
  match callback with
  | Some cb =>
      {| returned := match cb (CbError e) with
                     | Ok _ => Ok None
                     | Throw e' => Throw e'
                     end;
         calls := made ++ [CbError e];
         pages := pages2 |}
  | None => {| returned := Throw e; calls := made; pages := pages2 |}
  end.

(** Lines 79-81: the page of [path], created when there is none. *)
Definition page_of (path : string) (pages0 : gmap string PageT) : PageT :=
  match pages0 !! path with
  | Some pg => pg
  | None => createPage path
  end.

(** Lines 70-100. *)
Definition render (path : string) (locals : obj)
    (callback : option (cb_args -> result unit))
    (pages0 : gmap string PageT) : outcome :=
  let sendLocals := strip excludeLocals locals in
  let pg := page_of path pages0 in
  let '(r, pg') := page_render pg sendLocals in
  let pages1 := <[path := pg']> pages0 in
  match r with
  | Ok res =>
      match callback with
      | Some cb =>
          match cb (CbResult res) with
          | Ok _ =>
              {| returned := Ok None; calls := [CbResult res]; pages := pages1 |}
          | Throw e => on_failure path callback e [CbResult res] pages1
          end
      | None => {| returned := Ok (Some res); calls := []; pages := pages1 |}
      end
  | Throw e => on_failure path callback e [] pages1
  end.

End Registry.

End Engine.

(** ** A concrete page, for the examples *)

Module Sample.
Import JS Page.

Definition title_of (locals : obj) : string :=
  match get "title" locals with
  | VStr s => s
  | _ => EmptyString
  end.

(** An SSR component: a heading, and a [<title>] that it emits when
    [__headOnce] says so. *)
Definition ssr : renderer :=
  fun locals =>
    Ok {| r_head :=
            match get "__headOnce" locals with
            | VFun HeadOnce =>
                if fst (headOnce false)
                then "<title>" +:+ title_of locals +:+ "</title>"
                else EmptyString
            | _ => EmptyString
            end;
          r_html := "<h1>" +:+ title_of locals +:+ "</h1>" |}.

Definition the_module : ssr_module :=
  {| default_export := None; own_render := Some ssr |}.

Definition show (v : value) : string :=
  match v with
  | VStr s => s
  | _ => "undefined"
  end.

(** Stand-ins for [JSON.stringify] and for the template. *)
Fixpoint fields_text (o : obj) : string :=
  match o with
  | [] => EmptyString
  | (k, VStr s) :: o' => k +:+ "=" +:+ s +:+ ";" +:+ fields_text o'
  | _ :: o' => fields_text o'
  end.

Definition document (a : TemplateArgs) : string :=
  "<html><head>" +:+ t_head a
  +:+ "<link href=" +:+ t_cssPath a +:+ "?" +:+ show (t_cssHash a) +:+ ">"
  +:+ "<style>" +:+ show (t_css a) +:+ "</style></head><body>"
  +:+ t_html a
  +:+ "<script src=" +:+ t_jsPath a +:+ "?" +:+ show (t_jsHash a) +:+ ">"
  +:+ show (t_js a) +:+ "</script></body></html>".

(** The artifact as the specification writes it. *)
Definition spec_artifact : value :=
  VObj [("client", VObj [("code", VStr "<js>"); ("watchFiles", VArr [])]);
        ("server", VObj [("code", VStr "<ssr>");
                         ("css", VObj [("code", VStr ".a{}")])]);
        ("hashes", VObj [("js", VStr "h1"); ("css", VStr "h2")])].

(** The artifact with the fields that [init] and [render] read:
    [server.component] and [client.js.code]. *)
Definition built_artifact : value :=
  VObj [("client", VObj [("js", VObj [("code", VStr "<js>")]);
                         ("watchFiles", VArr [])]);
        ("server", VObj [("component", VStr "<ssr>");
                         ("css", VObj [("code", VStr ".a{}")])]);
        ("hashes", VObj [("js", VStr "h1"); ("css", VStr "h2")])].

(** The same page without a server component. *)
Definition client_only_artifact : value :=
  VObj [("client", VObj [("js", VObj [("code", VStr "<js>")]);
                         ("watchFiles", VArr [])]);
        ("server", VNull);
        ("hashes", VObj [("js", VStr "h1"); ("css", VStr "h2")])].

Definition corrupt : file := Unreadable (Thrown "Unexpected end of JSON input").

Definition runtime : Runtime :=
  {| isElectron := false;
     url_pathname := fun u => u;
     JSON_stringify := fields_text;
     instantiateSsrModule := fun code _ =>
       match code with
       | VStr _ => Ok the_module
       | _ => Throw (Thrown "no component code")
       end;
     cmd := fun _ _ => (Ok tt, Some (Json built_artifact));
     scheduler_build := fun _ w => (Ok tt, w);
     template_render := fun a => Ok (document a) |}.

(** A build script that leaves a truncated file. *)
Definition runtime_truncating : Runtime :=
  {| isElectron := false;
     url_pathname := fun u => u;
     JSON_stringify := fields_text;
     instantiateSsrModule := fun code _ =>
       match code with
       | VStr _ => Ok the_module
       | _ => Throw (Thrown "no component code")
       end;
     cmd := fun _ _ => (Ok tt, Some corrupt);
     scheduler_build := fun _ w => (Ok tt, w);
     template_render := fun a => Ok (document a) |}.

(** A loader that makes a module of anything, [undefined] included. *)
Definition runtime_lenient : Runtime :=
  {| isElectron := false;
     url_pathname := fun u => u;
     JSON_stringify := fields_text;
     instantiateSsrModule := fun _ _ => Ok the_module;
     cmd := fun _ _ => (Ok tt, Some (Json built_artifact));
     scheduler_build := fun _ w => (Ok tt, w);
     template_render := fun a => Ok (document a) |}.

(** A loader that rejects every component. *)
Definition runtime_unloadable : Runtime :=
  {| isElectron := false;
     url_pathname := fun u => u;
     JSON_stringify := fields_text;
     instantiateSsrModule := fun _ _ => Throw (Thrown "SyntaxError in component");
     cmd := fun _ _ => (Ok tt, Some (Json built_artifact));
     scheduler_build := fun _ w => (Ok tt, w);
     template_render := fun a => Ok (document a) |}.

Definition production : Config :=
  {| config_watch := false; config_liveReload := false;
     config_env := VStr "production"; config_payloadFormat := VUndef;
     config_prerender := None |}.

Definition watching : Config :=
  {| config_watch := true; config_liveReload := true;
     config_env := VStr "dev"; config_payloadFormat := VUndef;
     config_prerender := None |}.

Definition home : PageInfo :=
  {| path := "/app/pages/Home.html"; relativePath := "Home.html";
     name := "Home"; jsPath := "/assets/Home.js"; cssPath := "/assets/Home.css";
     config := production; liveReload := None |}.

Definition home_dev : PageInfo :=
  {| path := "/app/pages/Home.html"; relativePath := "Home.html";
     name := "Home"; jsPath := "/assets/Home.js"; cssPath := "/assets/Home.css";
     config := watching;
     liveReload := Some {| port := 5000; clients := [1%nat; 2%nat] |} |}.

Definition world_of (p : Page) (f : option file) : World :=
  {| page := p; buildFile := f; now := 0; timers := []; next_timer := 0%nat;
     payload := None; windows := []; log := [] |}.

Definition hi : obj := [("title", VStr "Hi")].

(** A page of the registry: the page object together with its disk. *)
Definition disk (p : string) : option file :=
  if String.eqb p "/app/pages/Home.html" then Some (Json built_artifact)
  else if String.eqb p "/app/pages/Broken.html" then Some corrupt
  else None.

Definition createPage (p : string) : World :=
  world_of (new_Page {| path := p; relativePath := p; name := "Page";
                        jsPath := "/assets/page.js"; cssPath := "/assets/page.css";
                        config := production; liveReload := None |})
           (disk p).

Definition page_render (w : World) (locals : obj) : result string * World :=
  render (rt := runtime) locals false w.

End Sample.

(** ** The activity of a page *)

Module Activity.
Import Page.

(** [this.idleTimer] is set. *)
Definition has_handle (w : World) : bool :=
  match idleTimer (page w) with
  | Some _ => true
  | None => false
  end.

(** No pending expiry is further away than the idle window. *)
Definition timely (w : World) : bool :=
  forallb (fun t => due t <=? now w + idleTimeout) (idle_timers w).

(** The page is active exactly while its one idle timer is pending, and that
    timer is due within the idle window. *)
Definition activity_inv (w : World) : bool :=
  idle_inv w && Bool.eqb (active (page w)) (has_handle w) && timely w.

End Activity.

(** ** What init tells the outside *)

Module Notices.
Import JS Page.

Section WithRuntime.
Context {rt : Runtime}.

(** Lines 129-131: a watcher that is there is closed. *)
Definition closing (w : World) : list event :=
  if bool_decide (is_Some (watcher (page w))) then [EvWatcherClose] else [].

(** Lines 146-164: the windows that show the page are reloaded in the
    embedded shell, and elsewhere every client of the socket is sent the
    path. *)
Definition reload_notices (w : World) : list event :=
  if isElectron
  then map EvWindowReload
         (List.filter
            (fun u => negb (String.eqb u "")
                      && String.eqb (url_pathname u) (path (info (page w))))
            (windows w))
  else match liveReload (info (page w)) with
       | Some lr => map (fun c => EvClientSend c (path (info (page w)))) (clients lr)
       | None => []
       end.

(** Lines 128-165, when nothing throws. *)
Definition watch_events (w : World) (files : value) : list event :=
  closing w ++ [EvWatch files]
  ++ (if config_liveReload (config (info (page w))) then reload_notices w else []).

(** Lines 115-121: the page after the artifact is loaded. *)
Definition loaded (server client hs : value) (m : ssr_module) (p : Page) : Page :=
  (if truthy server then set_ssrModule m else fun q => q)
    (set_components server client (or_else hs (VObj [])) p).

End WithRuntime.

End Notices.

(** ** The earlier entry point (part_000) *)

Module Legacy.
Import JS Engine.

Section Registry.
Context {PageT : Type}.
Variable createPage : string -> PageT.
Variable page_render : PageT -> obj -> result string * PageT.

(** Lines 21-27: the locals go to the page as they are, the callback gets
    the document, and a failure of the page's render rejects the call. *)
Definition render (path : string) (locals : obj)
    (callback : cb_args -> result unit)
    (pages0 : gmap string PageT) : outcome :=
  let pg := page_of createPage path pages0 in
  let '(r, pg') := page_render pg locals in
  let pages1 := <[path := pg']> pages0 in
  match r with
  | Ok res =>
      {| returned := match callback (CbResult res) with
                     | Ok _ => Ok None
                     | Throw e => Throw e
                     end;
         calls := [CbResult res];
         pages := pages1 |}
  | Throw e => {| returned := Throw e; calls := []; pages := pages1 |}
  end.

End Registry.

End Legacy.

(** ** The pre-render hook *)

Module Hook.
Import JS Page.

(** Lines 214-216: how the call of the pre-render hook ends and the
    context after it; without a hook nothing happens to the context. *)
Definition run_hook (cfg : Config) (ctx : obj) : result unit * obj :=
  match config_prerender cfg with
  | Some hook => hook ctx
  | None => (Ok tt, ctx)
  end.

End Hook.

(** ** A scheduler that builds *)

Module Scheduling.
Import JS Page.

(** Modelled from the spec: the scheduler is not among the sources; it
    accepts (page, priority) requests and "invokes Page's build entry
    point".  This one runs the page's [build] before the promise of
    [scheduler.build] settles, which is what [render] counts on when it
    goes on after [await this.init(true)] (Page.js 188-190, 239).  With one
    page there is nothing for the priority to order.  The build runs with
    the collaborators of [rt]. *)
Definition with_building_scheduler (rt : Runtime) : Runtime :=
  {| isElectron := isElectron;
     url_pathname := url_pathname;
     JSON_stringify := JSON_stringify;
     instantiateSsrModule := instantiateSsrModule;
     cmd := cmd;
     scheduler_build := fun _ w => build (rt := rt) w;
     template_render := template_render |}.

End Scheduling.

(** ** The registry when the constructor may throw *)

Module Constructing.
Import JS Engine.

Section Registry.
Context {PageT : Type}.
Variable newPage : string -> result PageT.
Variable page_render : PageT -> obj -> result string * PageT.
Variable excludeLocals : list string.

(** engine.js 70-100 once more, with a constructor that may throw.
    [createPage(path)] at line 80 is outside the [try]: what it throws
    rejects the call before [pages[path]] is assigned, and neither the
    [catch] nor the callback sees it. *)
Definition render (path : string) (locals : obj)
    (callback : option (cb_args -> result unit))
    (pages0 : gmap string PageT) : outcome :=
  let sendLocals := strip excludeLocals locals in
  let made :=
    match pages0 !! path with
    | Some pg => Ok pg
    | None => newPage path
    end in
  match made with
  | Throw e => {| returned := Throw e; calls := []; pages := pages0 |}
  | Ok pg =>
      let '(r, pg') := page_render pg sendLocals in
      let pages1 := <[path := pg']> pages0 in
      match r with
      | Ok res =>
          match callback with
          | Some cb =>
              match cb (CbResult res) with
              | Ok _ =>
                  {| returned := Ok None; calls := [CbResult res]; pages := pages1 |}
              | Throw e => on_failure path callback e [CbResult res] pages1
              end
          | None => {| returned := Ok (Some res); calls := []; pages := pages1 |}
          end
      | Throw e => on_failure path callback e [] pages1
      end
  end.

End Registry.

End Constructing.

(** ** More pages, for the examples *)

Module Cases.
Import JS Page.

(** Watch mode and live reload are on, and the engine has no socket. *)
Definition home_no_socket : PageInfo :=
  {| path := "/app/pages/Home.html"; relativePath := "Home.html";
     name := "Home"; jsPath := "/assets/Home.js"; cssPath := "/assets/Home.css";
     config := Sample.watching; liveReload := None |}.

(** An artifact without [client]. *)
Definition clientless_artifact : value :=
  VObj [("server", VNull); ("hashes", VObj [("js", VStr "h1")])].

(** A build script that fails and writes nothing. *)
Definition runtime_failing_build : Runtime :=
  {| isElectron := false;
     url_pathname := fun u => u;
     JSON_stringify := Sample.fields_text;
     instantiateSsrModule := fun code _ =>
       match code with
       | VStr _ => Ok Sample.the_module
       | _ => Throw (Thrown "no component code")
       end;
     cmd := fun _ f => (Throw (Thrown "build script exited with code 1"), f);
     scheduler_build := fun _ w => (Ok tt, w);
     template_render := fun a => Ok (Sample.document a) |}.

(** The embedded shell, where the path of a URL is what follows the
    scheme and host. *)
Definition runtime_electron : Runtime :=
  {| isElectron := true;
     url_pathname := fun u => String.substring 10 (String.length u - 10) u;
     JSON_stringify := Sample.fields_text;
     instantiateSsrModule := fun code _ =>
       match code with
       | VStr _ => Ok Sample.the_module
       | _ => Throw (Thrown "no component code")
       end;
     cmd := fun _ _ => (Ok tt, Some (Json Sample.built_artifact));
     scheduler_build := fun _ w => (Ok tt, w);
     template_render := fun a => Ok (Sample.document a) |}.

(** The sample page in the embedded shell, with three windows open. *)
Definition shell_world : World :=
  {| page := new_Page Sample.home_dev;
     buildFile := Some (Json Sample.built_artifact);
     now := 0; timers := []; next_timer := 0%nat; payload := None;
     windows := ["app://host/app/pages/Home.html"; EmptyString;
                 "app://host/app/pages/About.html"];
     log := [] |}.

(** An artifact with a server component and without [client]. *)
Definition server_only_artifact : value :=
  VObj [("server", VObj [("component", VStr "<ssr>");
                         ("css", VObj [("code", VStr ".a{}")])]);
        ("hashes", VObj [("js", VStr "h1"); ("css", VStr "h2")])].

(** A pre-render hook that puts the signed-in user into the context, and
    one that does so and then throws. *)
Definition hook_user : obj -> result unit * obj :=
  fun ctx => (Ok tt, set "user" (VStr "ann") ctx).

Definition hook_user_throws : obj -> result unit * obj :=
  fun ctx => (Throw (Thrown "store is closed"), set "user" (VStr "ann") ctx).

Definition home_hooked (hook : obj -> result unit * obj) : PageInfo :=
  {| path := "/app/pages/Home.html"; relativePath := "Home.html";
     name := "Home"; jsPath := "/assets/Home.js"; cssPath := "/assets/Home.css";
     config := {| config_watch := false; config_liveReload := false;
                  config_env := VStr "production"; config_payloadFormat := VUndef;
                  config_prerender := Some hook |};
     liveReload := None |}.

(** A constructor that throws for one path. *)
Definition newPage (p : string) : result World :=
  if String.eqb p "/elsewhere/Home.html"
  then Throw (Thrown "path is outside the views directory")
  else Ok (Sample.createPage p).

End Cases.

(** * Properties *)

(** ** Objects *)

Module JSFacts.
Import JS.

Lemma get_set (k k' : string) (v : value) (o : obj) :
  get k (set k' v o) = if String.eqb k k' then v else get k o.
Proof.
  induction o as [|[k0 v0] o IH]; simpl.
  - reflexivity.
  - destruct (String.eqb_spec k' k0) as [->|Hne]; simpl.
    + destruct (String.eqb_spec k k0); reflexivity.
    + rewrite IH.
      destruct (String.eqb_spec k k0) as [->|]; [|reflexivity].
      destruct (String.eqb_spec k0 k') as [->|]; [congruence|reflexivity].
Qed.

Lemma has_set (k k' : string) (v : value) (o : obj) :
  has k (set k' v o) = (String.eqb k k' || has k o)%bool.
Proof.
  induction o as [|[k0 v0] o IH]; simpl.
  - destruct (String.eqb k k'); reflexivity.
  - destruct (String.eqb_spec k' k0) as [->|Hne]; simpl.
    + destruct (String.eqb k k0); reflexivity.
    + rewrite IH.
      destruct (String.eqb_spec k k0) as [->|]; [|reflexivity].
      rewrite orb_true_r. reflexivity.
Qed.

Lemma has_keys (k : string) (o : obj) :
  has k o = existsb (String.eqb k) (keys o).
Proof.
  induction o as [|[k0 v0] o IH]; simpl; [reflexivity|].
  rewrite IH. destruct (String.eqb k k0); reflexivity.
Qed.

(** A copy loop over the keys [ks] of [src], keeping those that [keep]. *)
Lemma get_copy (keep : string -> bool) (src : obj) (k : string) :
  forall (ks : list string) (acc : obj),
    get k (fold_left
             (fun acc p => if keep p then set p (get p src) acc else acc)
             ks acc)
    = if (existsb (String.eqb k) ks && keep k)%bool then get k src else get k acc.
Proof.
  induction ks as [|p ks IH]; intros acc; simpl; [reflexivity|].
  rewrite IH.
  destruct (String.eqb_spec k p) as [->|Hne]; simpl.
  - destruct (keep p) eqn:Hk.
    + rewrite andb_true_r, get_set, String.eqb_refl.
      destruct (existsb (String.eqb p) ks); reflexivity.
    + rewrite andb_false_r. reflexivity.
  - destruct (existsb (String.eqb k) ks && keep k)%bool; [reflexivity|].
    destruct (keep p); [|reflexivity].
    rewrite get_set. destruct (String.eqb_spec k p); [congruence|reflexivity].
Qed.

Lemma has_copy (keep : string -> bool) (src : obj) (k : string) :
  forall (ks : list string) (acc : obj),
    has k (fold_left
             (fun acc p => if keep p then set p (get p src) acc else acc)
             ks acc)
    = ((existsb (String.eqb k) ks && keep k) || has k acc)%bool.
Proof.
  induction ks as [|p ks IH]; intros acc; simpl; [reflexivity|].
  rewrite IH.
  destruct (String.eqb_spec k p) as [->|Hne]; simpl.
  - destruct (keep p) eqn:Hk.
    + rewrite has_set, String.eqb_refl. simpl.
      rewrite orb_true_r. reflexivity.
    + rewrite andb_false_r. reflexivity.
  - destruct (keep p); [|reflexivity].
    rewrite has_set. destruct (String.eqb_spec k p); [congruence|reflexivity].
Qed.

Lemma get_spread (base src : obj) (k : string) :
  get k (spread base src) = if has k src then get k src else get k base.
Proof.
  unfold spread.
  rewrite (get_copy (fun _ => true) src k (keys src) base).
  rewrite andb_true_r, has_keys. reflexivity.
Qed.

Lemma has_spread (base src : obj) (k : string) :
  has k (spread base src) = (has k src || has k base)%bool.
Proof.
  unfold spread.
  rewrite (has_copy (fun _ => true) src k (keys src) base).
  rewrite andb_true_r, (has_keys k src). reflexivity.
Qed.

End JSFacts.

(** ** The render context *)

Module ContextFacts.
Import JS Page JSFacts.

(** C2 (as amended): the render context holds every caller local under its
    own name and value, a caller local named [__headOnce] included, which
    replaces the engine's; the engine's [__headOnce] is in the context when
    the caller supplies no local of that name, and the context has no other
    field. *)
Theorem context_lookup (locals : obj) (k : string) :
  get k (context locals)
  = (if has k locals then get k locals
     else if String.eqb k "__headOnce" then VFun HeadOnce else VUndef)
  /\ has k (context locals) = (has k locals || String.eqb k "__headOnce")%bool.
Proof.
  unfold context. split.
  - rewrite get_spread. simpl. reflexivity.
  - rewrite has_spread. simpl.
    destruct (String.eqb k "__headOnce"); reflexivity.
Qed.

(** C2 (as stated) fails: a caller local named [__headOnce] overrides the
    engine's closure, and it is the caller's value that reaches the SSR
    code through the payload slot. *)
Lemma context_headOnce_overridden :
  get "__headOnce" (context [("__headOnce", VStr "mine"); ("title", VStr "Hi")])
  = VStr "mine"
  /\ get "__headOnce" (context [("__headOnce", VStr "mine"); ("title", VStr "Hi")])
     <> VFun HeadOnce
  /\ payload (snd (render (rt := Sample.runtime)
                          [("__headOnce", VStr "mine"); ("title", VStr "Hi")] false
                          (Sample.world_of (new_Page Sample.home)
                                           (Some (Json Sample.built_artifact)))))
     = Some [("__headOnce", VStr "mine"); ("title", VStr "Hi")].
Proof.
  split; [reflexivity|]. split; [discriminate|]. reflexivity.
Qed.

End ContextFacts.

(** ** Unfolding the methods *)

Create HintDb page_monad.
#[export] Hint Unfold Page.bind Page.ret Page.throw Page.try_catch Page.lift
  Page.gets Page.modify Page.emit Page.when Page.exec : page_monad.

Create HintDb page_init.
#[export] Hint Unfold Page.init Page.load_artifact Page.readJson
  Page.deleteIfExists Page.call_scheduler_build Page.start_watching
  Page.notify_reload : page_init.

Ltac unfold_init := autounfold with page_init page_monad.

(** ** init *)

Module InitFacts.
Import JS Page.

Section WithRuntime.
Context {rt : Runtime}.

(** C4 (as amended): when the artifact file exists and reading or parsing
    it fails, [init] deletes the file and re-throws the failure; the page
    object is as it was, so its [ready] flag is unchanged: a page that was
    not ready stays unready. *)
Theorem init_unreadable_artifact (priority : bool) (w : World) (e : error) :
  buildFile w = Some (Unreadable e) ->
  let w' := snd (init priority w) in
  fst (init priority w) = Throw e
  /\ buildFile w' = None
  /\ log w' = log w ++ [EvDeleteArtifact]
  /\ page w' = page w
  /\ ready (page w') = ready (page w).
Proof.
  intros Hfile.
  assert (Heq : init priority w
                = (Throw e, add_event EvDeleteArtifact (set_buildFile None w))).
  { unfold_init. repeat (rewrite Hfile; simpl). reflexivity. }
  simpl. rewrite Heq. simpl. repeat split; reflexivity.
Qed.

(** C9: when the artifact parses and has a server component, and loading
    that component throws, [init] throws the same error with
    [serverComponent], [clientComponent] and [hashes] already set from the
    artifact ([hashes] to an empty object when the artifact has none) and
    the artifact file deleted; [ready] and the SSR module loaded before are
    as they were. *)
Theorem init_ssr_load_failure (priority : bool) (w : World)
    (json client server hs code : value) (e : error) :
  buildFile w = Some (Json json) ->
  get_prop json "client" = Ok client ->
  get_prop json "server" = Ok server ->
  get_prop json "hashes" = Ok hs ->
  truthy server = true ->
  get_prop server "component" = Ok code ->
  instantiateSsrModule code (path (info (page w))) = Throw e ->
  let w' := snd (init priority w) in
  fst (init priority w) = Throw e
  /\ serverComponent (page w') = server
  /\ clientComponent (page w') = client
  /\ hashes (page w') = or_else hs (VObj [])
  /\ buildFile w' = None
  /\ ready (page w') = ready (page w)
  /\ ssrModule (page w') = ssrModule (page w).
Proof.
  intros Hfile Hc Hs Hh Ht Hcode Hload.
  assert (Heq : init priority w
                = (Throw e,
                   add_event EvDeleteArtifact
                     (set_buildFile None
                        (with_page (set_components server client
                                      (or_else hs (VObj []))) w)))).
  { unfold_init. rewrite Hfile. simpl. rewrite Hfile. simpl.
    rewrite Hc, Hs, Hh, Ht, Hcode. simpl. rewrite Hload. simpl.
    rewrite Hfile. reflexivity. }
  simpl. rewrite Heq. simpl. repeat split; reflexivity.
Qed.

End WithRuntime.

(** C4 at a fresh page whose artifact is truncated. *)
Lemma init_unreadable_artifact_witness :
  buildFile (Sample.world_of (new_Page Sample.home) (Some Sample.corrupt))
  = Some (Unreadable (Thrown "Unexpected end of JSON input"))
  /\ fst (init (rt := Sample.runtime) false
            (Sample.world_of (new_Page Sample.home) (Some Sample.corrupt)))
     = Throw (Thrown "Unexpected end of JSON input")
  /\ buildFile (snd (init (rt := Sample.runtime) false
                       (Sample.world_of (new_Page Sample.home) (Some Sample.corrupt))))
     = None
  /\ ready (page (snd (init (rt := Sample.runtime) false
                         (Sample.world_of (new_Page Sample.home) (Some Sample.corrupt)))))
     = false.
Proof.
  destruct (init_unreadable_artifact (rt := Sample.runtime) false
              (Sample.world_of (new_Page Sample.home) (Some Sample.corrupt))
              (Thrown "Unexpected end of JSON input") eq_refl)
    as (Hthrow & Hfile & _ & _ & Hready).
  split; [reflexivity|]. split; [exact Hthrow|]. split; [exact Hfile|].
  exact Hready.
Defined.

(** C4 (as stated) fails: a page that is ready, rebuilt by a script that
    leaves a truncated file, is still ready after the failing [init]. *)
Lemma init_failure_keeps_ready :
  let w1 := snd (render (rt := Sample.runtime_truncating) Sample.hi false
                   (Sample.world_of (new_Page Sample.home)
                                    (Some (Json Sample.built_artifact)))) in
  let w2 := exec (runBuildScript (rt := Sample.runtime_truncating)) w1 in
  ready (page w2) = true
  /\ buildFile w2 = Some Sample.corrupt
  /\ fst (init (rt := Sample.runtime_truncating) false w2)
     = Throw (Thrown "Unexpected end of JSON input")
  /\ buildFile (snd (init (rt := Sample.runtime_truncating) false w2)) = None
  /\ ready (page (snd (init (rt := Sample.runtime_truncating) false w2))) = true.
Proof.
  repeat split; vm_compute; reflexivity.
Qed.

(** C9 at the sample page, with a loader that rejects the component. *)
Lemma init_ssr_load_failure_witness :
  let w := Sample.world_of (new_Page Sample.home) (Some (Json Sample.built_artifact)) in
  let w' := snd (init (rt := Sample.runtime_unloadable) false w) in
  fst (init (rt := Sample.runtime_unloadable) false w)
  = Throw (Thrown "SyntaxError in component")
  /\ serverComponent (page w')
     = VObj [("component", VStr "<ssr>"); ("css", VObj [("code", VStr ".a{}")])]
  /\ serverComponent (page w) = VUndef
  /\ buildFile w' = None
  /\ ready (page w') = false.
Proof.
  destruct (init_ssr_load_failure (rt := Sample.runtime_unloadable) false
              (Sample.world_of (new_Page Sample.home) (Some (Json Sample.built_artifact)))
              Sample.built_artifact
              (VObj [("js", VObj [("code", VStr "<js>")]); ("watchFiles", VArr [])])
              (VObj [("component", VStr "<ssr>"); ("css", VObj [("code", VStr ".a{}")])])
              (VObj [("js", VStr "h1"); ("css", VStr "h2")])
              (VStr "<ssr>") (Thrown "SyntaxError in component")
              eq_refl eq_refl eq_refl eq_refl eq_refl eq_refl eq_refl)
    as (Hthrow & Hserver & _ & _ & Hfile & Hready & _).
  simpl. split; [exact Hthrow|]. split; [exact Hserver|].
  split; [reflexivity|]. split; [exact Hfile|]. exact Hready.
Defined.

End InitFacts.

(** ** Timers: heartbeat and the change handler *)

Module TimerFacts.
Import JS Page.

Lemma filter_swap {A} (f g : A -> bool) (l : list A) :
  List.filter f (List.filter g l) = List.filter g (List.filter f l).
Proof.
  induction l as [|x l IH]; simpl; [reflexivity|].
  destruct (f x) eqn:Hf, (g x) eqn:Hg; simpl; rewrite ?Hf, ?Hg, IH; reflexivity.
Qed.

Lemma existsb_filter {A} (f : A -> bool) (l : list A) :
  existsb f l = match List.filter f l with [] => false | _ :: _ => true end.
Proof.
  induction l as [|x l IH]; simpl; [reflexivity|].
  destruct (f x); simpl; [reflexivity|exact IH].
Qed.

Lemma filter_enqueue_skip (f : timer -> bool) (t : timer) (ts : list timer) :
  f t = false -> List.filter f (enqueue t ts) = List.filter f ts.
Proof.
  intros Hf. induction ts as [|t' ts IH]; simpl.
  - rewrite Hf. reflexivity.
  - destruct (due t' <=? due t); simpl.
    + rewrite IH. reflexivity.
    + rewrite Hf. reflexivity.
Qed.

Lemma filter_enqueue_only (f : timer -> bool) (t : timer) (ts : list timer) :
  f t = true -> List.filter f ts = [] -> List.filter f (enqueue t ts) = [t].
Proof.
  intros Hf. induction ts as [|t' ts IH]; simpl; intros Hnone.
  - rewrite Hf. reflexivity.
  - destruct (f t') eqn:Hf'; [discriminate|].
    destruct (due t' <=? due t); simpl.
    + rewrite Hf'. apply IH, Hnone.
    + rewrite Hf, Hf', Hnone. reflexivity.
Qed.

Lemma In_enqueue (t : timer) (ts : list timer) : In t (enqueue t ts).
Proof.
  induction ts as [|t' ts IH]; simpl; [left; reflexivity|].
  destruct (due t' <=? due t); simpl; auto.
Qed.

Section WithRuntime.
Context {rt : Runtime}.

(** What the callbacks of the timers [ts] do to the page: an idle expiry
    among them clears [active] and the handle. *)
Lemma fire_page (ts : list timer) : forall w : World,
  page (fire ts w)
  = if existsb is_idle ts
    then set_idleTimer None (set_active false (page w))
    else page w.
Proof.
  induction ts as [|t ts IH]; intros w; simpl; [reflexivity|].
  rewrite IH. unfold is_idle at 2.
  destruct (callback t); simpl; destruct (existsb is_idle ts); reflexivity.
Qed.

Lemma fire_timers (ts : list timer) : forall w : World,
  timers (fire ts w) = timers w.
Proof.
  induction ts as [|t ts IH]; intros w; simpl; [reflexivity|].
  rewrite IH. destruct (callback t); reflexivity.
Qed.

(** While the page is inactive, every resumed change handler asks for a
    build without priority. *)
Lemma fire_log_inactive (ts : list timer) : forall w : World,
  active (page w) = false ->
  log (fire ts w)
  = log w ++ map (fun _ => EvScheduleBuild false) (List.filter is_resume ts).
Proof.
  induction ts as [|t ts IH]; intros w Hact; simpl.
  - rewrite app_nil_r. reflexivity.
  - unfold is_resume at 1, is_idle. destruct (callback t); simpl.
    + rewrite IH by reflexivity. reflexivity.
    + rewrite IH by (simpl; exact Hact). simpl. rewrite Hact.
      rewrite <- app_assoc. reflexivity.
Qed.

Lemma heartbeat_post (w : World) :
  idle_inv w = true ->
  let w1 := exec heartbeat w in
  active (page w1) = true
  /\ idleTimer (page w1) = Some (next_timer w)
  /\ idle_timers w1
     = [{| tid := next_timer w; due := now w + idleTimeout; callback := IdleExpire |}]
  /\ now w1 = now w.
Proof.
  unfold idle_inv, idle_timers. intros Hinv.
  unfold heartbeat, setTimeout, clearTimeout. autounfold with page_monad. simpl.
  destruct (idleTimer (page w)) as [id|]; simpl.
  - repeat split.
    apply filter_enqueue_only; [reflexivity|].
    rewrite filter_swap.
    destruct (List.filter is_idle (timers w)) as [|t0 [|? ?]]; try discriminate.
    simpl. rewrite Hinv. reflexivity.
  - repeat split.
    apply filter_enqueue_only; [reflexivity|].
    destruct (List.filter is_idle (timers w)); [reflexivity|discriminate].
Qed.

Lemma heartbeat_inv (w : World) :
  idle_inv w = true -> idle_inv (exec heartbeat w) = true.
Proof.
  intros Hinv. destruct (heartbeat_post w Hinv) as (_ & Hid & Hts & _).
  unfold idle_inv. rewrite Hid, Hts. simpl. apply Nat.eqb_refl.
Qed.

(** Time passes beyond the deadline of the pending idle timer. *)
Lemma elapse_expires (d : N) (w : World) (t0 : timer) :
  idle_timers w = [t0] -> due t0 <= now w + d ->
  active (page (elapse d w)) = false
  /\ idleTimer (page (elapse d w)) = None
  /\ idle_timers (elapse d w) = [].
Proof.
  unfold idle_timers, elapse. intros Hts Hdue. simpl.
  rewrite fire_page, fire_timers. simpl.
  rewrite existsb_filter, !(filter_swap is_idle), Hts. simpl.
  apply N.leb_le in Hdue. rewrite Hdue. simpl. repeat split.
Qed.

(** Time passes short of it. *)
Lemma elapse_keeps (d : N) (w : World) (t0 : timer) :
  idle_timers w = [t0] -> now w + d < due t0 ->
  page (elapse d w) = page w
  /\ idle_timers (elapse d w) = [t0]
  /\ now (elapse d w) = now w + d.
Proof.
  unfold idle_timers, elapse. intros Hts Hdue. simpl.
  rewrite fire_page, fire_timers. simpl.
  rewrite existsb_filter, !(filter_swap is_idle), Hts. simpl.
  apply N.leb_gt in Hdue. rewrite Hdue. simpl. repeat split.
Qed.

(** The handle invariant holds for a new page and is kept by everything
    that happens to a page between method calls. *)
Lemma new_Page_inv (i : PageInfo) (w : World) :
  page w = new_Page i -> idle_timers w = [] -> idle_inv w = true.
Proof.
  intros Hpage Hnone. unfold idle_inv. rewrite Hpage, Hnone. reflexivity.
Qed.

Lemma elapse_inv (d : N) (w : World) :
  idle_inv w = true -> idle_inv (elapse d w) = true.
Proof.
  unfold idle_inv. intros Hinv.
  destruct (idle_timers w) as [|t0 [|t1 l]] eqn:Hts.
  - destruct (idleTimer (page w)) eqn:Hid; [discriminate|].
    unfold idle_timers, elapse in *. simpl.
    rewrite fire_page, fire_timers. simpl.
    rewrite existsb_filter, !(filter_swap is_idle), Hts. simpl.
    rewrite Hid. reflexivity.
  - destruct (idleTimer (page w)) as [id|] eqn:Hid; [|discriminate].
    destruct (N.le_gt_cases (due t0) (now w + d)) as [Hdue|Hdue].
    + destruct (elapse_expires d w t0 Hts Hdue) as (_ & -> & ->). reflexivity.
    + destruct (elapse_keeps d w t0 Hts Hdue) as (-> & -> & _).
      rewrite Hid. exact Hinv.
  - destruct (idleTimer (page w)); discriminate.
Qed.

Lemma on_change_inv (w : World) :
  idle_inv w = true -> idle_inv (exec on_change w) = true.
Proof.
  unfold idle_inv, idle_timers, on_change, sleep_then, change_resume,
    scheduleBuild, setTimeout.
  autounfold with page_monad. simpl.
  destruct (negb isElectron && negb (active (page w)))%bool; simpl;
    [rewrite filter_enqueue_skip by reflexivity|]; trivial.
Qed.

Lemma step_inv (i : input) (w : World) :
  idle_inv w = true -> idle_inv (step i w) = true.
Proof.
  intros Hinv. destruct i as [p| |d]; simpl.
  - destruct (liveReload (info (page w))); [|exact Hinv].
    unfold on_message. autounfold with page_monad. simpl.
    destruct (String.eqb p (path (info (page w)))); [|exact Hinv].
    apply heartbeat_inv, Hinv.
  - destruct (watcher (page w)); [|exact Hinv]. apply on_change_inv, Hinv.
  - apply elapse_inv, Hinv.
Qed.

Lemma run_inv (inputs : list input) : forall w : World,
  idle_inv w = true -> idle_inv (run inputs w) = true.
Proof.
  induction inputs as [|i inputs IH]; intros w Hinv; simpl; [exact Hinv|].
  apply IH, step_inv, Hinv.
Qed.

(** C6: after [heartbeat()] the page is active and one idle timer is
    pending, due 15 seconds later, with its handle in [idleTimer]; when 15
    seconds pass with no further heartbeat the page is inactive, the handle
    is cleared and no idle timer is pending; a heartbeat that arrives before
    that leaves again exactly one idle timer, due 15 seconds after it, so
    the page stays active past the first deadline and expires 15 seconds
    after the last heartbeat. *)
Theorem heartbeat_idle_cycle (w : World) :
  idle_inv w = true ->
  let w1 := exec heartbeat w in
  idleTimeout = 15000
  /\ active (page w1) = true
  /\ idleTimer (page w1) = Some (next_timer w)
  /\ idle_timers w1 = [expiry_from w]
  /\ (forall d, idleTimeout <= d ->
        active (page (elapse d w1)) = false
        /\ idleTimer (page (elapse d w1)) = None
        /\ idle_timers (elapse d w1) = [])
  /\ (forall d, d < idleTimeout ->
        let w2 := elapse d w1 in
        let w3 := exec heartbeat w2 in
        active (page w2) = true
        /\ active (page w3) = true
        /\ idle_timers w3 = [expiry_from w2]
        /\ due (expiry_from w2) = now w + d + idleTimeout
        /\ (forall d', d' < idleTimeout -> active (page (elapse d' w3)) = true)
        /\ (forall d', idleTimeout <= d' ->
              active (page (elapse d' w3)) = false
              /\ idleTimer (page (elapse d' w3)) = None)).
Proof.
  intros Hinv w1.
  destruct (heartbeat_post w Hinv) as (Hact & Hid & Hts & Hnow).
  fold w1 in Hact, Hid, Hts, Hnow. fold (expiry_from w) in Hts.
  split; [reflexivity|].
  split; [exact Hact|]. split; [exact Hid|]. split; [exact Hts|].
  split.
  - intros d Hd.
    apply (elapse_expires d w1 (expiry_from w) Hts).
    rewrite Hnow. simpl. lia.
  - intros d Hd w2 w3.
    destruct (elapse_keeps d w1 (expiry_from w) Hts) as (Hpage & Hts2 & Hnow2).
    { rewrite Hnow. simpl. lia. }
    fold w2 in Hpage, Hts2, Hnow2.
    assert (Hinv2 : idle_inv w2 = true).
    { unfold idle_inv. rewrite Hpage, Hid, Hts2. simpl. apply Nat.eqb_refl. }
    destruct (heartbeat_post w2 Hinv2) as (Hact3 & Hid3 & Hts3 & Hnow3).
    fold w3 in Hact3, Hid3, Hts3, Hnow3. fold (expiry_from w2) in Hts3.
    split; [rewrite Hpage; exact Hact|].
    split; [exact Hact3|]. split; [exact Hts3|].
    split.
    { change (now w2 + idleTimeout = now w + d + idleTimeout).
      rewrite Hnow2, Hnow. reflexivity. }
    split.
    + intros d' Hd'.
      destruct (elapse_keeps d' w3 (expiry_from w2) Hts3) as (Hpage4 & _).
      { rewrite Hnow3. simpl. lia. }
      rewrite Hpage4. exact Hact3.
    + intros d' Hd'.
      destruct (elapse_expires d' w3 (expiry_from w2) Hts3) as (Ha & Hi & _).
      { rewrite Hnow3. simpl. lia. }
      split; assumption.
Qed.

(** C3 (as amended): on a change notification the page becomes unready and
    asks the scheduler for a build whose priority is the [active] flag read
    when the request is made.  An active page, or any page in the embedded
    shell, makes the request at once, so with the flag of that moment.  An
    inactive page outside the shell makes no request yet and waits 100 ms;
    the resumed handler reads the flag then, so the priority is false when
    only time passes meanwhile, and is whatever the flag has become
    otherwise. *)
Theorem change_requests_rebuild (w : World) :
  let w1 := exec on_change w in
  ready (page w1) = false
  /\ (isElectron = true \/ active (page w) = true ->
        log w1 = log w ++ [EvScheduleBuild (active (page w))]
        /\ timers w1 = timers w)
  /\ (isElectron = false -> active (page w) = false ->
        log w1 = log w
        /\ timers w1 = enqueue (resume_from w) (timers w)
        /\ (forall d, d < 100 -> In (resume_from w) (timers (elapse d w1)))
        /\ (forall d, 100 <= d ->
              ~ In (resume_from w) (timers (elapse d w1))
              /\ exists k, log (elapse d w1)
                           = log w ++ repeat (EvScheduleBuild false) (S k)))
  /\ (forall w', exec (run_job ChangeResume) w'
                 = add_event (EvScheduleBuild (active (page w'))) w').
Proof.
  intros w1. subst w1. unfold on_change, sleep_then, change_resume, scheduleBuild,
    setTimeout. autounfold with page_monad. simpl.
  split; [destruct (negb isElectron && negb (active (page w))); reflexivity|].
  split; [|split].
  - intros Hnow.
    assert (Hc : (negb isElectron && negb (active (page w)))%bool = false).
    { destruct Hnow as [-> | ->]; [reflexivity|apply andb_false_r]. }
    rewrite Hc. simpl. split; reflexivity.
  - intros He Ha. rewrite He, Ha. simpl. fold (resume_from w).
    split; [reflexivity|]. split; [reflexivity|]. split.
    + intros d Hd. unfold elapse. simpl. rewrite fire_timers. simpl.
      apply filter_In. split; [apply In_enqueue|].
      simpl. apply negb_true_iff, N.leb_gt. lia.
    + intros d Hd. split.
      * unfold elapse. simpl. rewrite fire_timers. simpl.
        intros Hin. apply filter_In in Hin. destruct Hin as [_ Hnot].
        simpl in Hnot. apply negb_true_iff, N.leb_gt in Hnot. lia.
      * unfold elapse. simpl. rewrite fire_log_inactive by (simpl; exact Ha).
        simpl.
        assert (Hin : In (resume_from w)
                  (List.filter is_resume
                     (List.filter (fun t => due t <=? now w + d)
                        (enqueue (resume_from w) (timers w))))).
        { apply filter_In. split; [|reflexivity].
          apply filter_In. split; [apply In_enqueue|].
          simpl. apply N.leb_le. lia. }
        destruct (List.filter is_resume _) as [|t l]; [destruct Hin|].
        exists (length l). simpl. f_equal. f_equal.
        clear. induction l as [|x l IH]; simpl; [reflexivity|]. rewrite IH.
        reflexivity.
  - intros w'. reflexivity.
Qed.

End WithRuntime.

(** C6 on a fresh page: a heartbeat, then 15 seconds of silence; and a
    second heartbeat after 10 seconds, with the first deadline passing 5
    seconds later. *)
Lemma heartbeat_idle_cycle_witness :
  let w := Sample.world_of (new_Page Sample.home_dev) None in
  let w1 := exec heartbeat w in
  idle_inv w = true
  /\ active (page w1) = true
  /\ idle_timers w1 = [{| tid := 0; due := 15000; callback := IdleExpire |}]
  /\ active (page (elapse 15000 w1)) = false
  /\ idleTimer (page (elapse 15000 w1)) = None
  /\ active (page (elapse 5000 (exec heartbeat (elapse 10000 w1)))) = true.
Proof.
  destruct (heartbeat_idle_cycle
              (Sample.world_of (new_Page Sample.home_dev) None) eq_refl)
    as (_ & Hact & _ & Hts & Hexp & Hagain).
  destruct (Hexp 15000 ltac:(vm_compute; discriminate)) as (Hoff & Hnone & _).
  destruct (Hagain 10000 ltac:(reflexivity)) as (_ & _ & _ & _ & Hstill & _).
  split; [reflexivity|]. split; [exact Hact|]. split; [exact Hts|].
  split; [exact Hoff|]. split; [exact Hnone|].
  exact (Hstill 5000 ltac:(reflexivity)).
Defined.

(** C3 on an inactive page outside the shell, and on the same page made
    active by a heartbeat. *)
Lemma change_requests_rebuild_witness :
  let w := Sample.world_of (new_Page Sample.home_dev) None in
  let wa := exec heartbeat w in
  isElectron (Runtime := Sample.runtime) = false
  /\ active (page w) = false
  /\ log (exec (on_change (rt := Sample.runtime)) w) = []
  /\ log (exec (on_change (rt := Sample.runtime)) wa) = [EvScheduleBuild true]
  /\ timers (exec (on_change (rt := Sample.runtime)) w)
     = [{| tid := 0; due := 100; callback := ChangeResume |}].
Proof.
  destruct (change_requests_rebuild (rt := Sample.runtime)
              (Sample.world_of (new_Page Sample.home_dev) None))
    as (_ & _ & Hlater & _).
  destruct (Hlater eq_refl eq_refl) as (Hlog & Htimers & _).
  destruct (change_requests_rebuild (rt := Sample.runtime)
              (exec heartbeat (Sample.world_of (new_Page Sample.home_dev) None)))
    as (_ & Hnow & _).
  destruct (Hnow (or_intror eq_refl)) as (Hlog' & _).
  split; [reflexivity|]. split; [reflexivity|]. split; [exact Hlog|].
  split; [exact Hlog'|]. exact Htimers.
Defined.

(** C3 (as stated) fails: the page is ready and inactive when the change
    is notified, a heartbeat arrives 50 ms later, and the request made at
    100 ms has priority [true]. *)
Lemma change_priority_read_after_debounce :
  let w0 := snd (render (rt := Sample.runtime) Sample.hi false
                   (Sample.world_of (new_Page Sample.home_dev)
                                    (Some (Json Sample.built_artifact)))) in
  let w1 := run (rt := Sample.runtime)
              [FileChange; Elapse 50; WsMessage "/app/pages/Home.html"; Elapse 50]
              w0 in
  ready (page w0) = true
  /\ active (page w0) = false
  /\ isElectron (Runtime := Sample.runtime) = false
  /\ rebuilds w0 = []
  /\ rebuilds w1 = [EvScheduleBuild true]
  /\ rebuilds w1 <> [EvScheduleBuild (active (page w0))].
Proof.
  repeat split; try (vm_compute; reflexivity).
  vm_compute. discriminate.
Qed.

End TimerFacts.

(** ** render *)

Module RenderFacts.
Import JS Page.

Section WithRuntime.
Context {rt : Runtime}.

(** Composing the document leaves the page, the disk and the log alone. *)
Lemma compose_frame (locals : obj) (forEmail : bool) (w : World) :
  page (snd (compose locals forEmail w)) = page w
  /\ buildFile (snd (compose locals forEmail w)) = buildFile w
  /\ log (snd (compose locals forEmail w)) = log w.
Proof.
  unfold compose. autounfold with page_monad. simpl.
  destruct (config_prerender (config (info (page w)))) as [hook|]; simpl.
  - destruct (hook (context locals)) as [[[]|e] ctx]; simpl; repeat split.
  - repeat split.
Qed.

(** What is composed depends on the page object only. *)
Lemma compose_result (locals : obj) (forEmail : bool) (w w' : World) :
  page w = page w' ->
  fst (compose locals forEmail w) = fst (compose locals forEmail w').
Proof.
  intros Hpage. unfold compose. autounfold with page_monad. simpl.
  rewrite <- Hpage.
  destruct (config_prerender (config (info (page w)))) as [hook|]; simpl.
  - destruct (hook (context locals)) as [[[]|e] ctx]; simpl;
      [rewrite <- Hpage|]; reflexivity.
  - rewrite <- Hpage. reflexivity.
Qed.

(** A composed document was filled in from the page as it is. *)
Lemma compose_fill (locals : obj) (forEmail : bool) (w w' : World) (t : target) :
  compose locals forEmail w = (Ok t, w') ->
  exists ctx, fill (page w) ctx forEmail = Ok t.
Proof.
  unfold compose. autounfold with page_monad. simpl.
  destruct (config_prerender (config (info (page w)))) as [hook|]; simpl.
  - destruct (hook (context locals)) as [[[]|e] ctx]; simpl; [|discriminate].
    intros H. exists ctx. congruence.
  - intros H. exists (context locals). congruence.
Qed.

(** Lines 184-190 do nothing on a ready page when no rebuild is forced. *)
Lemma prepare_ready (locals : obj) (w : World) :
  ready (page w) = true ->
  truthy (get "_rebuild" locals) = false ->
  prepare locals w = (Ok tt, w).
Proof.
  intros Hready Hforce. unfold prepare. autounfold with page_monad. simpl.
  rewrite Hforce, Hready. reflexivity.
Qed.

Lemma render_world (locals : obj) (forEmail : bool) (w : World) :
  snd (render locals forEmail w) = snd (assemble locals forEmail w).
Proof.
  unfold render. autounfold with page_monad.
  destruct (assemble locals forEmail w) as [[[html|args]|e] w']; reflexivity.
Qed.

Lemma render_result (locals : obj) (forEmail : bool) (w : World) :
  fst (render locals forEmail w)
  = match fst (assemble locals forEmail w) with
    | Ok (Fragment html) => Ok html
    | Ok (Document args) => template_render args
    | Throw e => Throw e
    end.
Proof.
  unfold render. autounfold with page_monad.
  destruct (assemble locals forEmail w) as [[[html|args]|e] w']; reflexivity.
Qed.

(** C8: a second [render] of the same locals on a ready page, with no
    forced rebuild and nothing happening in between, fills in the same
    document as the first: the same [html], [css] and [js] (and every other
    argument of the template), hence the same result; the first call leaves
    the page object and the log as they were. *)
Theorem render_twice (locals : obj) (forEmail : bool) (w : World) :
  ready (page w) = true ->
  truthy (get "_rebuild" locals) = false ->
  let w1 := snd (render locals forEmail w) in
  fst (assemble locals forEmail w1) = fst (assemble locals forEmail w)
  /\ fst (render locals forEmail w1) = fst (render locals forEmail w)
  /\ page w1 = page w
  /\ log w1 = log w.
Proof.
  intros Hready Hforce w1.
  assert (Hfirst : assemble locals forEmail w = compose locals forEmail w).
  { unfold assemble, bind. rewrite prepare_ready by assumption. reflexivity. }
  destruct (compose_frame locals forEmail w) as (Hpage & _ & Hlog).
  assert (Hpage1 : page w1 = page w).
  { unfold w1. rewrite render_world, Hfirst. exact Hpage. }
  assert (Hsecond : assemble locals forEmail w1 = compose locals forEmail w1).
  { unfold assemble, bind. rewrite prepare_ready; [reflexivity| |assumption].
    rewrite Hpage1. exact Hready. }
  assert (Hsame : fst (assemble locals forEmail w1) = fst (assemble locals forEmail w)).
  { rewrite Hfirst, Hsecond. apply compose_result, Hpage1. }
  split; [exact Hsame|].
  split; [rewrite !render_result, Hsame; reflexivity|].
  split; [exact Hpage1|].
  unfold w1. rewrite render_world, Hfirst. exact Hlog.
Qed.

(** Without a stylesheet [css] keeps its initial value. *)
Lemma render_ssr_no_stylesheet (p : Page) (ctx : obj) :
  is_string (config_env (config (info p))) "dev" = true
  \/ truthy (serverComponent p) = false ->
  (exists head html, render_ssr p ctx = Ok (head, html, VStr ""))
  \/ (exists e, render_ssr p ctx = Throw e).
Proof.
  intros Hwhy. unfold render_ssr.
  destruct (truthy (serverComponent p)) eqn:Hserver; [|eauto].
  destruct Hwhy as [Hdev|]; [|discriminate]. rewrite Hdev. simpl.
  destruct (ssrModule p) as [m|]; simpl; [|eauto].
  destruct (call_render (pick m) ctx) as [r|e]; simpl; eauto.
Qed.

(** Then the template gets [undefined]. *)
Lemma fill_css (p : Page) (ctx : obj) (args : TemplateArgs) :
  fill p ctx false = Ok (Document args) ->
  is_string (config_env (config (info p))) "dev" = true
  \/ truthy (serverComponent p) = false ->
  t_css args = VUndef.
Proof.
  unfold fill. intros Hfill Hwhy.
  destruct (render_ssr_no_stylesheet p ctx Hwhy) as [(head & html & Hok) | [e He]].
  - rewrite Hok in Hfill. simpl in Hfill.
    destruct (get_prop (clientComponent p) "js") as [js|]; simpl in Hfill;
      [|discriminate].
    destruct (get_prop js "code"); simpl in Hfill; [|discriminate].
    destruct (get_prop (hashes p) "js"); simpl in Hfill; [|discriminate].
    destruct (get_prop (hashes p) "css"); simpl in Hfill; [|discriminate].
    injection Hfill as <-. reflexivity.
  - rewrite He in Hfill. discriminate.
Qed.

(** C10: in a [render] that reaches the template, when [config.env] is
    ["dev"] or the page has no server component, [css] is still the empty
    string, and the template's [css] argument, read as [css.code], is
    [undefined]. *)
Theorem css_undefined_without_stylesheet
    (locals : obj) (w w' : World) (args : TemplateArgs) :
  assemble locals false w = (Ok (Document args), w') ->
  is_string (config_env (config (info (page w')))) "dev" = true
  \/ truthy (serverComponent (page w')) = false ->
  t_css args = VUndef
  /\ fst (render locals false w) = template_render args.
Proof.
  intros Hdoc Hwhy. split.
  - unfold assemble, bind in Hdoc.
    destruct (prepare locals w) as [[[]|e] w0]; [|discriminate].
    destruct (compose_frame locals false w0) as (Hpage & _).
    rewrite Hdoc in Hpage. simpl in Hpage.
    destruct (compose_fill _ _ _ _ _ Hdoc) as [ctx Hfill].
    apply (fill_css (page w0) ctx args Hfill).
    rewrite <- Hpage. exact Hwhy.
  - rewrite render_result, Hdoc. reflexivity.
Qed.

End WithRuntime.

(** C8 on the sample page: two renders of the same locals. *)
Lemma render_twice_witness :
  let w0 := Sample.world_of (new_Page Sample.home)
              (Some (Json Sample.built_artifact)) in
  let w := snd (render (rt := Sample.runtime) Sample.hi false w0) in
  let w1 := snd (render (rt := Sample.runtime) Sample.hi false w) in
  ready (page w) = true
  /\ truthy (get "_rebuild" Sample.hi) = false
  /\ fst (assemble (rt := Sample.runtime) Sample.hi false w1)
     = fst (assemble (rt := Sample.runtime) Sample.hi false w)
  /\ fst (render (rt := Sample.runtime) Sample.hi false w1)
     = fst (render (rt := Sample.runtime) Sample.hi false w).
Proof.
  destruct (render_twice (rt := Sample.runtime) Sample.hi false
              (snd (render (rt := Sample.runtime) Sample.hi false
                      (Sample.world_of (new_Page Sample.home)
                         (Some (Json Sample.built_artifact)))))
              eq_refl eq_refl)
    as (Hfill & Hdoc & _).
  split; [reflexivity|]. split; [reflexivity|]. split; [exact Hfill|exact Hdoc].
Defined.

(** C10 on a page without a server component. *)
Lemma css_undefined_without_stylesheet_witness :
  let w := Sample.world_of (new_Page Sample.home)
             (Some (Json Sample.client_only_artifact)) in
  truthy (serverComponent
            (page (snd (assemble (rt := Sample.runtime) Sample.hi false w))))
  = false
  /\ (exists args,
        fst (assemble (rt := Sample.runtime) Sample.hi false w) = Ok (Document args)
        /\ t_css args = VUndef
        /\ t_js args = VStr "<js>").
Proof.
  split; [reflexivity|].
  eexists. split; [reflexivity|]. split; [|reflexivity].
  eapply (css_undefined_without_stylesheet (rt := Sample.runtime) Sample.hi
            (Sample.world_of (new_Page Sample.home)
               (Some (Json Sample.client_only_artifact)))).
  - reflexivity.
  - right. reflexivity.
Defined.

End RenderFacts.

(** ** The cached artifact *)

Module ArtifactFacts.
Import JS Page.

Section WithRuntime.
Context {rt : Runtime}.

Lemma rebuilds_add_event (e : event) (w : World) :
  is_rebuild e = false -> rebuilds (add_event e w) = rebuilds w.
Proof.
  intros He. unfold rebuilds. simpl.
  rewrite List.filter_app. simpl. rewrite He. apply app_nil_r.
Qed.

(** A loop that only sends notices succeeds and asks for no build. *)
Lemma for_each_emit {A} (keep : A -> bool) (notice : A -> event) (l : list A) :
  (forall x, is_rebuild (notice x) = false) ->
  forall w : World,
  exists w',
    for_each l (fun x => when (keep x) (emit (notice x))) w = (Ok tt, w')
    /\ page w' = page w
    /\ buildFile w' = buildFile w
    /\ rebuilds w' = rebuilds w.
Proof.
  intros Hnotice. set (body := fun x => when (keep x) (emit (notice x))).
  induction l as [|x l IH]; intros w; simpl.
  - exists w. repeat split.
  - unfold bind. unfold body at 1. destruct (keep x); simpl.
    + destruct (IH (add_event (notice x) w)) as (w' & Hrun & Hp & Hf & Hr).
      exists w'. rewrite Hrun. repeat split; try assumption.
      rewrite Hr. apply rebuilds_add_event, Hnotice.
    + destruct (IH w) as (w' & Hrun & Hp & Hf & Hr).
      exists w'. rewrite Hrun. repeat split; assumption.
Qed.

Lemma notify_reload_ok (w : World) :
  (isElectron = false -> liveReload (info (page w)) <> None) ->
  exists w',
    notify_reload w = (Ok tt, w')
    /\ page w' = page w
    /\ buildFile w' = buildFile w
    /\ rebuilds w' = rebuilds w.
Proof.
  intros Hsocket. unfold notify_reload. autounfold with page_monad. simpl.
  destruct isElectron.
  - apply (for_each_emit
             (fun winUrl => negb (String.eqb winUrl "")
                            && String.eqb (url_pathname winUrl) (path (info (page w))))
             EvWindowReload).
    reflexivity.
  - destruct (liveReload (info (page w))) as [lr|]; [|now destruct Hsocket].
    apply (for_each_emit (fun _ => true)
             (fun c => EvClientSend c (path (info (page w))))).
    reflexivity.
Qed.

Lemma start_watching_ok (w : World) (files : value) :
  get_prop (clientComponent (page w)) "watchFiles" = Ok files ->
  (config_liveReload (config (info (page w))) = true ->
   isElectron = false -> liveReload (info (page w)) <> None) ->
  exists w',
    start_watching w = (Ok tt, w')
    /\ page w' = set_watcher files (page w)
    /\ buildFile w' = buildFile w
    /\ rebuilds w' = rebuilds w.
Proof.
  intros Hfiles Hsocket. unfold start_watching. autounfold with page_monad. simpl.
  set (w0 := if bool_decide (is_Some (watcher (page w)))
             then add_event EvWatcherClose w else w).
  assert (H0 : page w0 = page w /\ buildFile w0 = buildFile w
               /\ rebuilds w0 = rebuilds w).
  { unfold w0. destruct (bool_decide _); repeat split.
    apply rebuilds_add_event. reflexivity. }
  destruct H0 as (Hp0 & Hf0 & Hr0).
  replace ((if bool_decide (is_Some (watcher (page w)))
            then fun w1 => (Ok tt, add_event EvWatcherClose w1)
            else fun w1 => (Ok tt, w1)) w)
    with (@Ok unit tt, w0) by (unfold w0; destruct (bool_decide _); reflexivity).
  rewrite Hp0, Hfiles. simpl.
  destruct (config_liveReload (config (info (page w)))) eqn:Hlive.
  - destruct (notify_reload_ok
                (add_event (EvWatch files) (with_page (set_watcher files) w0)))
      as (w' & Hrun & Hp & Hf & Hr).
    { simpl. rewrite Hp0. intros He. apply Hsocket; [reflexivity|exact He]. }
    exists w'. rewrite Hrun. simpl in Hp, Hf.
    rewrite Hp, Hf, Hr, Hp0, Hf0.
    rewrite rebuilds_add_event by reflexivity.
    repeat split. exact Hr0.
  - eexists. split; [reflexivity|]. simpl. rewrite Hp0, Hf0.
    repeat split. rewrite rebuilds_add_event by reflexivity. exact Hr0.
Qed.

(** [init] on an artifact that loads: the components and the SSR module are
    stored, a watcher is attached in watch mode, the page is ready, the
    file stays, and no build is asked for. *)
Lemma init_loads (priority : bool) (w : World)
    (json client server hs code files : value) (m : ssr_module) :
  buildFile w = Some (Json json) ->
  get_prop json "client" = Ok client ->
  get_prop json "server" = Ok server ->
  get_prop json "hashes" = Ok hs ->
  truthy server = true ->
  get_prop server "component" = Ok code ->
  instantiateSsrModule code (path (info (page w))) = Ok m ->
  get_prop client "watchFiles" = Ok files ->
  (config_watch (config (info (page w))) = true ->
   config_liveReload (config (info (page w))) = true ->
   isElectron = false -> liveReload (info (page w)) <> None) ->
  exists w',
    init priority w = (Ok tt, w')
    /\ page w'
       = set_ready true
           ((if config_watch (config (info (page w)))
             then set_watcher files else fun p => p)
              (set_ssrModule m
                 (set_components server client (or_else hs (VObj [])) (page w))))
    /\ buildFile w' = buildFile w
    /\ rebuilds w' = rebuilds w.
Proof.
  intros Hfile Hc Hs Hh Ht Hcode Hload Hfiles Hsocket.
  unfold init, try_catch, load_artifact, readJson. autounfold with page_monad.
  rewrite Hfile. simpl. rewrite Hfile. simpl.
  rewrite Hc, Hs, Hh, Ht, Hcode. simpl. rewrite Hload. simpl.
  destruct (config_watch (config (info (page w)))) eqn:Hwatch.
  - destruct (start_watching_ok
                (with_page (set_ssrModule m)
                   (with_page (set_components server client (or_else hs (VObj []))) w))
                files)
      as (w' & Hrun & Hp & Hf & Hr).
    { exact Hfiles. }
    { simpl. intros Hlive He. apply Hsocket; [reflexivity|exact Hlive|exact He]. }
    rewrite Hrun. eexists. split; [reflexivity|].
    unfold rebuilds in *. simpl in Hp, Hf, Hr. simpl.
    rewrite Hp, Hf, Hr. repeat split. exact Hfile.
  - eexists. split; [reflexivity|]. repeat split. exact Hfile.
Qed.

Lemma compose_no_hook (locals : obj) (forEmail : bool) (w : World) :
  config_prerender (config (info (page w))) = None ->
  compose locals forEmail w
  = (fill (page w) (context locals) forEmail,
     set_payload (context locals) (set_payload (context locals) w)).
Proof.
  intros Hhook. unfold compose. autounfold with page_monad. simpl.
  rewrite Hhook. reflexivity.
Qed.

(** C1 (as amended): the page has never been initialised and the artifact
    on disk is [{client: {js: {code: "<js>"}, watchFiles: []}, server:
    {component: "<ssr>", css: {code: ".a{}"}}, hashes: {js: "h1", css:
    "h2"}}]; the environment is not ["dev"] and there is no pre-render hook.
    Then [render({title: "Hi"})] returns what the template makes of the
    [html] and [head] that the SSR module rendered (the head followed by
    the live-reload script when live reload is on), the cached CSS [".a{}"],
    the client code, the asset paths and the hashes ["h1"] and ["h2"]; the
    page is ready afterwards, the artifact is still on disk, and nothing
    was asked of the scheduler or of the build script. *)
Theorem render_cached_artifact
    (i : PageInfo) (w : World) (m : ssr_module) (r : rendered) :
  page w = new_Page i ->
  buildFile w = Some (Json Sample.built_artifact) ->
  is_string (config_env (config i)) "dev" = false ->
  config_prerender (config i) = None ->
  (config_watch (config i) = true -> config_liveReload (config i) = true ->
   isElectron = false -> liveReload i <> None) ->
  instantiateSsrModule (VStr "<ssr>") (path i) = Ok m ->
  call_render (pick m) (context [("title", VStr "Hi")]) = Ok r ->
  let json := JSON_stringify (context [("title", VStr "Hi")]) in
  let args :=
    {| t_head := match liveReload i with
                 | Some lr => r_head r +:+ liveReloadScript (port lr) (path i)
                 | None => r_head r
                 end;
       t_html := r_html r;
       t_css := VStr ".a{}";
       t_js := VStr "<js>";
       t_jsPath := jsPath i;
       t_cssPath := cssPath i;
       t_jsHash := VStr "h1";
       t_cssHash := VStr "h2";
       t_name := name i;
       t_props := if is_string (config_payloadFormat (config i)) "templateString"
                  then "`" +:+ double_backslashes json +:+ "`"
                  else json |} in
  let w' := snd (render [("title", VStr "Hi")] false w) in
  fst (render [("title", VStr "Hi")] false w) = template_render args
  /\ rebuilds w' = rebuilds w
  /\ buildFile w' = buildFile w
  /\ ready (page w') = true.
Proof.
  intros Hpage Hfile Hdev Hhook Hsocket Hload Hssr json args w'.
  destruct (init_loads true w Sample.built_artifact
              (VObj [("js", VObj [("code", VStr "<js>")]); ("watchFiles", VArr [])])
              (VObj [("component", VStr "<ssr>"); ("css", VObj [("code", VStr ".a{}")])])
              (VObj [("js", VStr "h1"); ("css", VStr "h2")])
              (VStr "<ssr>") (VArr []) m)
    as (w1 & Hinit & Hp1 & Hf1 & Hr1);
    try reflexivity; try assumption; try (rewrite Hpage; simpl; assumption).
  assert (Hprepare : prepare [("title", VStr "Hi")] w = (Ok tt, w1)).
  { unfold prepare. autounfold with page_monad. simpl.
    rewrite Hpage. simpl. exact Hinit. }
  assert (Hinfo : info (page w1) = i).
  { rewrite Hp1, Hpage. simpl. destruct (config_watch (config i)); reflexivity. }
  assert (Hassemble : assemble [("title", VStr "Hi")] false w
                      = (Ok (Document args),
                         set_payload (context [("title", VStr "Hi")])
                           (set_payload (context [("title", VStr "Hi")]) w1))).
  { unfold assemble, bind. rewrite Hprepare.
    rewrite compose_no_hook by (rewrite Hinfo; exact Hhook).
    f_equal. rewrite Hp1, Hpage. unfold fill, render_ssr. simpl.
    destruct (config_watch (config i)); simpl;
      rewrite Hssr, Hdev; simpl; reflexivity. }
  split; [rewrite RenderFacts.render_result, Hassemble; reflexivity|].
  unfold w'. rewrite RenderFacts.render_world, Hassemble. simpl.
  split; [exact Hr1|]. split; [exact Hf1|].
  rewrite Hp1. reflexivity.
Qed.

End WithRuntime.

(** C1 on the sample page: the document that comes back. *)
Lemma render_cached_artifact_witness :
  let w := Sample.world_of (new_Page Sample.home)
             (Some (Json Sample.built_artifact)) in
  is_string (config_env (config Sample.home)) "dev" = false
  /\ fst (render (rt := Sample.runtime) [("title", VStr "Hi")] false w)
     = Ok ("<html><head><title>Hi</title><link href=/assets/Home.css?h2>"
           +:+ "<style>.a{}</style></head><body><h1>Hi</h1>"
           +:+ "<script src=/assets/Home.js?h1><js></script></body></html>")
  /\ rebuilds (snd (render (rt := Sample.runtime) [("title", VStr "Hi")] false w)) = [].
Proof.
  destruct (render_cached_artifact (rt := Sample.runtime) Sample.home
              (Sample.world_of (new_Page Sample.home)
                 (Some (Json Sample.built_artifact)))
              Sample.the_module
              {| r_head := "<title>Hi</title>"; r_html := "<h1>Hi</h1>" |}
              eq_refl eq_refl eq_refl eq_refl
              ltac:(discriminate) eq_refl eq_refl)
    as (Hdoc & Hnone & _).
  split; [reflexivity|]. split; [exact Hdoc|exact Hnone].
Defined.

(** C1 (as stated) fails: with the artifact as the specification writes
    it, [client] has no [js] and [server] no [component], and
    [render({title: "Hi"})] returns no document, whatever the loader, the
    template and the other collaborators are: it throws, in the loader
    when that rejects [undefined], and on [js.code] otherwise. *)
Lemma render_spec_artifact_throws :
  ~ (exists (rt : Runtime) (doc : string) (w' : World),
        render (rt := rt) [("title", VStr "Hi")] false
          (Sample.world_of (new_Page Sample.home)
             (Some (Json Sample.spec_artifact)))
        = (Ok doc, w'))
  /\ fst (render (rt := Sample.runtime) [("title", VStr "Hi")] false
            (Sample.world_of (new_Page Sample.home)
               (Some (Json Sample.spec_artifact))))
     = Throw (Thrown "no component code")
  /\ fst (render (rt := Sample.runtime_lenient) [("title", VStr "Hi")] false
            (Sample.world_of (new_Page Sample.home)
               (Some (Json Sample.spec_artifact))))
     = Throw (TypeError "Cannot read properties of undefined (reading 'code')").
Proof.
  split; [|split; reflexivity].
  intros (rt & doc & w' & Hrender).
  unfold render, assemble, prepare, compose, fill, render_ssr, init, try_catch,
    load_artifact, readJson, deleteIfExists in Hrender.
  autounfold with page_monad in Hrender. simpl in Hrender.
  destruct (instantiateSsrModule VUndef "/app/pages/Home.html") as [m|e];
    simpl in Hrender; [|discriminate].
  destruct (call_render (pick m) _) as [r|e]; simpl in Hrender; discriminate.
Qed.

End ArtifactFacts.

(** ** The registry *)

Module EngineFacts.
Import JS Engine JSFacts.

Lemma strip_copy (excludeLocals : list string) (locals : obj) :
  strip excludeLocals locals
  = fold_left
      (fun acc p =>
         if negb (existsb (String.eqb p) excludeLocals)
         then set p (get p locals) acc else acc)
      (keys locals) [].
Proof.
  unfold strip. generalize (@nil (string * value)).
  induction (keys locals) as [|p ks IH]; intros acc; simpl; [reflexivity|].
  destruct (existsb (String.eqb p) excludeLocals); simpl; apply IH.
Qed.

(** Lines 71-77: an excluded key is not sent, every other key is sent with
    its value. *)
Lemma strip_lookup (excludeLocals : list string) (locals : obj) (k : string) :
  get k (strip excludeLocals locals)
  = (if existsb (String.eqb k) excludeLocals then VUndef else get k locals)
  /\ has k (strip excludeLocals locals)
     = (has k locals && negb (existsb (String.eqb k) excludeLocals))%bool.
Proof.
  rewrite strip_copy. split.
  - rewrite get_copy. rewrite <- has_keys. simpl.
    destruct (existsb (String.eqb k) excludeLocals); simpl.
    + rewrite andb_false_r. reflexivity.
    + rewrite andb_true_r. destruct (has k locals) eqn:Hhas; [reflexivity|].
      clear -Hhas. induction locals as [|[k0 v0] o IH]; simpl in *; [reflexivity|].
      destruct (String.eqb k k0); [discriminate|auto].
  - rewrite has_copy. rewrite <- has_keys. simpl. apply orb_false_r.
Qed.

Section Registry.
Context {PageT : Type}.
Variable createPage : string -> PageT.
Variable page_render : PageT -> obj -> result string * PageT.
Variable excludeLocals : list string.

(** C5: the registry's [render(path, locals, callback?)] renders the page
    of [path], created when the path has none, with the locals less the
    excluded keys.  When that render succeeds, the document is returned,
    or is what the callback is called with first.  When it fails, the page
    is removed from the registry and the error is thrown, or is what the
    callback is called with; the next render of the same path then runs on
    a page that the constructor has just made. *)
Theorem registry_render (path : string) (locals : obj)
    (callback : option (cb_args -> result unit)) (pages0 : gmap string PageT) :
  let sendLocals := strip excludeLocals locals in
  let pg := page_of createPage path pages0 in
  let out := render createPage page_render excludeLocals path locals callback pages0 in
  (forall k,
      get k sendLocals
      = if existsb (String.eqb k) excludeLocals then VUndef else get k locals)
  /\ (forall k,
        has k sendLocals
        = (has k locals && negb (existsb (String.eqb k) excludeLocals))%bool)
  /\ (pages0 !! path = None -> pg = createPage path)
  /\ (forall doc pg',
        page_render pg sendLocals = (Ok doc, pg') ->
        match callback with
        | None =>
            returned out = Ok (Some doc) /\ calls out = []
            /\ pages out !! path = Some pg'
        | Some cb =>
            (exists more, calls out = CbResult doc :: more)
            /\ (cb (CbResult doc) = Ok tt ->
                returned out = Ok None /\ calls out = [CbResult doc]
                /\ pages out !! path = Some pg')
        end)
  /\ (forall e pg',
        page_render pg sendLocals = (Throw e, pg') ->
        pages out !! path = None
        /\ match callback with
           | None => returned out = Throw e /\ calls out = []
           | Some cb => calls out = [CbError e]
           end
        /\ page_of createPage path (pages out) = createPage path
        /\ forall locals2 callback2,
             render createPage page_render excludeLocals path locals2 callback2
               (pages out)
             = render createPage page_render excludeLocals path locals2 callback2
                 (delete path pages0)).
Proof.
  intros sendLocals pg out.
  split; [intros k; apply strip_lookup|].
  split; [intros k; apply strip_lookup|].
  split.
  { intros Hnone. unfold pg, page_of. rewrite Hnone. reflexivity. }
  split.
  - intros doc pg' Hdoc. unfold out, render. fold sendLocals. fold pg.
    rewrite Hdoc. destruct callback as [cb|].
    + split.
      * destruct (cb (CbResult doc)) as [[]|e]; unfold on_failure; simpl; eauto.
      * intros Hcb. rewrite Hcb. simpl.
        repeat split. apply lookup_insert_eq.
    + simpl. repeat split. apply lookup_insert_eq.
  - intros e pg' Hfail.
    assert (Hpages : pages out = delete path (<[path := pg']> pages0)).
    { unfold out, render. fold sendLocals. fold pg. rewrite Hfail.
      unfold on_failure. destruct callback; reflexivity. }
    assert (Hgone : pages out !! path = None).
    { rewrite Hpages. apply lookup_delete_eq. }
    split; [exact Hgone|]. split.
    { unfold out, render. fold sendLocals. fold pg. rewrite Hfail.
      unfold on_failure. destruct callback; simpl; auto. }
    split.
    { unfold page_of. rewrite Hgone. reflexivity. }
    intros locals2 callback2. rewrite Hpages, delete_insert_eq. reflexivity.
Qed.

End Registry.

(** C5 on a registry of sample pages: a page that renders stays, with and
    without a callback; a page whose artifact is truncated is removed and
    its error comes back, and the excluded locals are not sent. *)
Lemma registry_render_witness :
  let render := Engine.render Sample.createPage Sample.page_render
                  excludeLocals_default in
  let good := render "/app/pages/Home.html"
                [("settings", VObj []); ("title", VStr "Hi")] None ∅ in
  let bad := render "/app/pages/Broken.html" Sample.hi None (pages good) in
  let told := render "/app/pages/Broken.html" Sample.hi
                (Some (fun _ => Ok tt)) (pages good) in
  strip excludeLocals_default [("settings", VObj []); ("title", VStr "Hi")]
  = Sample.hi
  /\ (exists doc, returned good = Ok (Some doc))
  /\ is_Some (pages good !! "/app/pages/Home.html")
  /\ returned bad = Throw (Thrown "Unexpected end of JSON input")
  /\ pages bad !! "/app/pages/Broken.html" = None
  /\ calls told = [CbError (Thrown "Unexpected end of JSON input")]
  /\ is_Some (pages bad !! "/app/pages/Home.html").
Proof.
  intros render good bad told.
  destruct (registry_render Sample.createPage Sample.page_render
              excludeLocals_default "/app/pages/Broken.html" Sample.hi None
              (pages good))
    as (_ & _ & _ & _ & Hfail).
  destruct (Hfail (Thrown "Unexpected end of JSON input")
              (snd (Sample.page_render
                      (page_of Sample.createPage "/app/pages/Broken.html" (pages good))
                      (strip excludeLocals_default Sample.hi))))
    as (Hgone & [Hthrown _] & _).
  { vm_compute. reflexivity. }
  split; [reflexivity|].
  split; [eexists; vm_compute; reflexivity|].
  split; [vm_compute; eauto|].
  split; [exact Hthrown|]. split; [exact Hgone|].
  split; [vm_compute; reflexivity|].
  vm_compute. eauto.
Defined.

End EngineFacts.

(** ** More on init and build *)

Module InitMore.
Import JS Page Notices.

Lemma filter_all {A} (l : list A) : List.filter (fun _ => true) l = l.
Proof. induction l as [|x l IH]; simpl; [reflexivity|]. rewrite IH. reflexivity. Qed.


Section WithRuntime.
Context {rt : Runtime}.

(** The notices of lines 146-164 for the page of [w]. *)
Lemma for_each_log {A} (keep : A -> bool) (notice : A -> event) (l : list A) :
  forall w : World,
  exists w',
    for_each l (fun x => when (keep x) (emit (notice x))) w = (Ok tt, w')
    /\ page w' = page w
    /\ buildFile w' = buildFile w
    /\ log w' = log w ++ map notice (List.filter keep l).
Proof.
  set (body := fun x => when (keep x) (emit (notice x))).
  induction l as [|x l IH]; intros w; simpl.
  - exists w. rewrite app_nil_r. repeat split.
  - unfold bind. unfold body at 1. destruct (keep x); simpl.
    + destruct (IH (add_event (notice x) w)) as (w' & Hrun & Hp & Hf & Hl).
      exists w'. rewrite Hrun, Hl. simpl. rewrite <- app_assoc.
      repeat split; assumption.
    + destruct (IH w) as (w' & Hrun & Hp & Hf & Hl).
      exists w'. rewrite Hrun. repeat split; assumption.
Qed.

Lemma notify_reload_log (w : World) :
  (isElectron = false -> liveReload (info (page w)) <> None) ->
  exists w',
    notify_reload w = (Ok tt, w')
    /\ page w' = page w
    /\ buildFile w' = buildFile w
    /\ log w' = log w ++ reload_notices w.
Proof.
  intros Hsocket. unfold notify_reload, reload_notices.
  autounfold with page_monad. simpl.
  destruct isElectron.
  - apply (for_each_log
             (fun winUrl => negb (String.eqb winUrl "")
                            && String.eqb (url_pathname winUrl) (path (info (page w))))
             EvWindowReload).
  - destruct (liveReload (info (page w))) as [lr|]; [|now destruct Hsocket].
    destruct (for_each_log (fun _ => true)
                (fun c => EvClientSend c (path (info (page w)))) (clients lr) w)
      as (w' & Hrun & Hp & Hf & Hl).
    exists w'. rewrite filter_all in Hl. repeat split; assumption.
Qed.

Lemma reload_notices_frame (w w1 : World) :
  info (page w1) = info (page w) -> windows w1 = windows w ->
  reload_notices w1 = reload_notices w.
Proof. intros Hi Hw. unfold reload_notices. rewrite Hi, Hw. reflexivity. Qed.

(** Lines 128-165 when the socket is there. *)
Lemma start_watching_log (w : World) (files : value) :
  get_prop (clientComponent (page w)) "watchFiles" = Ok files ->
  (config_liveReload (config (info (page w))) = true ->
   isElectron = false -> liveReload (info (page w)) <> None) ->
  exists w',
    start_watching w = (Ok tt, w')
    /\ page w' = set_watcher files (page w)
    /\ buildFile w' = buildFile w
    /\ log w' = log w ++ watch_events w files.
Proof.
  intros Hfiles Hsocket. unfold start_watching, watch_events, closing.
  autounfold with page_monad. simpl.
  destruct (bool_decide (is_Some (watcher (page w)))); simpl; rewrite Hfiles; simpl;
    destruct (config_liveReload (config (info (page w)))) eqn:Hlive.
  - destruct (notify_reload_log
                (add_event (EvWatch files)
                   (with_page (set_watcher files) (add_event EvWatcherClose w))))
      as (w' & Hrun & Hp & Hf & Hl).
    { simpl. intros He. apply Hsocket; [reflexivity|exact He]. }
    exists w'. rewrite Hrun. rewrite Hp, Hf, Hl. simpl.
    rewrite (reload_notices_frame w) by reflexivity.
    rewrite <- !app_assoc. repeat split.
  - eexists. split; [reflexivity|]. simpl. rewrite <- !app_assoc. repeat split.
  - destruct (notify_reload_log
                (add_event (EvWatch files) (with_page (set_watcher files) w)))
      as (w' & Hrun & Hp & Hf & Hl).
    { simpl. intros He. apply Hsocket; [reflexivity|exact He]. }
    exists w'. rewrite Hrun. rewrite Hp, Hf, Hl. simpl.
    rewrite (reload_notices_frame w) by reflexivity.
    rewrite <- !app_assoc. repeat split.
  - eexists. split; [reflexivity|]. simpl. repeat split.
Qed.

(** Lines 109-121 when nothing throws. *)
Lemma load_artifact_ok (w : World) (json client server hs : value) (m : ssr_module) :
  buildFile w = Some (Json json) ->
  get_prop json "client" = Ok client ->
  get_prop json "server" = Ok server ->
  get_prop json "hashes" = Ok hs ->
  (truthy server = true ->
   exists code, get_prop server "component" = Ok code
                /\ instantiateSsrModule code (path (info (page w))) = Ok m) ->
  exists w1,
    load_artifact w = (Ok tt, w1)
    /\ page w1 = loaded server client hs m (page w)
    /\ buildFile w1 = buildFile w
    /\ windows w1 = windows w
    /\ log w1 = log w.
Proof.
  intros Hfile Hc Hs Hh Hload. unfold load_artifact, readJson, loaded.
  autounfold with page_monad. rewrite Hfile. simpl. rewrite Hc, Hs, Hh. simpl.
  destruct (truthy server).
  - destruct (Hload eq_refl) as (code & Hcode & Hm).
    rewrite Hcode. simpl. rewrite Hm. simpl.
    eexists. split; [reflexivity|]. simpl. repeat split. exact Hfile.
  - eexists. split; [reflexivity|]. simpl. repeat split. exact Hfile.
Qed.

(** [init] on an artifact that loads, in full. *)
Lemma init_run (priority : bool) (w : World)
    (json client server hs files : value) (m : ssr_module) :
  buildFile w = Some (Json json) ->
  get_prop json "client" = Ok client ->
  get_prop json "server" = Ok server ->
  get_prop json "hashes" = Ok hs ->
  (truthy server = true ->
   exists code, get_prop server "component" = Ok code
                /\ instantiateSsrModule code (path (info (page w))) = Ok m) ->
  (config_watch (config (info (page w))) = true ->
   get_prop client "watchFiles" = Ok files) ->
  (config_watch (config (info (page w))) = true ->
   config_liveReload (config (info (page w))) = true ->
   isElectron = false -> liveReload (info (page w)) <> None) ->
  exists w',
    init priority w = (Ok tt, w')
    /\ page w'
       = set_ready true
           ((if config_watch (config (info (page w)))
             then set_watcher files else fun p => p)
              (loaded server client hs m (page w)))
    /\ buildFile w' = buildFile w
    /\ log w'
       = log w ++ (if config_watch (config (info (page w)))
                   then watch_events w files else []).
Proof.
  intros Hfile Hc Hs Hh Hload Hfiles Hsocket.
  destruct (load_artifact_ok w json client server hs m Hfile Hc Hs Hh Hload)
    as (w1 & Hrun1 & Hp1 & Hf1 & Hw1 & Hl1).
  assert (Hinfo : info (page w1) = info (page w)).
  { rewrite Hp1. unfold loaded. destruct (truthy server); reflexivity. }
  assert (Hwatcher : watcher (page w1) = watcher (page w)).
  { rewrite Hp1. unfold loaded. destruct (truthy server); reflexivity. }
  assert (Hclient : clientComponent (page w1) = client).
  { rewrite Hp1. unfold loaded. destruct (truthy server); reflexivity. }
  unfold init, try_catch, bind at 1, gets at 1. rewrite Hfile.
  unfold bind at 1. rewrite Hrun1.
  unfold bind at 1, gets at 1. cbv beta iota. rewrite Hinfo.
  destruct (config_watch (config (info (page w)))) eqn:Hwatch.
  - destruct (start_watching_log w1 files) as (w2 & Hrun2 & Hp2 & Hf2 & Hl2).
    { rewrite Hclient. apply Hfiles. reflexivity. }
    { rewrite Hinfo. apply Hsocket. reflexivity. }
    unfold when, bind. rewrite Hrun2. unfold modify.
    eexists. split; [reflexivity|]. simpl.
    rewrite Hp2, Hf2, Hl2, Hp1, Hf1, Hl1.
    repeat split; [exact Hfile|]. f_equal.
    unfold watch_events, closing. rewrite Hinfo, Hwatcher.
    rewrite (reload_notices_frame w w1) by assumption. reflexivity.
  - unfold when, bind, ret, modify. eexists. split; [reflexivity|]. simpl.
    rewrite Hp1, Hf1, Hl1, app_nil_r. repeat split. exact Hfile.
Qed.

Lemma watch_events_quiet (w : World) (files : value) :
  List.filter is_rebuild (watch_events w files) = [].
Proof.
  unfold watch_events, closing, reload_notices.
  rewrite !List.filter_app. simpl.
  destruct (bool_decide (is_Some (watcher (page w)))); simpl;
    destruct (config_liveReload (config (info (page w)))); simpl; try reflexivity;
    destruct isElectron.
  all: try (induction (List.filter _ (windows w)) as [|u l IH]; simpl; auto).
  all: destruct (liveReload (info (page w))) as [lr|]; simpl; try reflexivity.
  all: induction (clients lr) as [|c l IH]; simpl; auto.
Qed.

(** X1: [init] on an artifact that loads stores the artifact's [server],
    [client] and [hashes] (an empty object when the artifact has no
    hashes), loads the SSR module when there is a server component and
    keeps the one it had otherwise, attaches a watcher on
    [client.watchFiles] in watch mode, and makes the page ready; the
    activity state and the artifact file are as before and nothing is asked
    of the scheduler or the build script. *)
Theorem init_makes_ready (priority : bool) (w : World)
    (json client server hs files : value) (m : ssr_module) :
  buildFile w = Some (Json json) ->
  get_prop json "client" = Ok client ->
  get_prop json "server" = Ok server ->
  get_prop json "hashes" = Ok hs ->
  (truthy server = true ->
   exists code, get_prop server "component" = Ok code
                /\ instantiateSsrModule code (path (info (page w))) = Ok m) ->
  (config_watch (config (info (page w))) = true ->
   get_prop client "watchFiles" = Ok files) ->
  (config_watch (config (info (page w))) = true ->
   config_liveReload (config (info (page w))) = true ->
   isElectron = false -> liveReload (info (page w)) <> None) ->
  let w' := snd (init priority w) in
  fst (init priority w) = Ok tt
  /\ ready (page w') = true
  /\ serverComponent (page w') = server
  /\ clientComponent (page w') = client
  /\ hashes (page w') = or_else hs (VObj [])
  /\ ssrModule (page w') = (if truthy server then Some m else ssrModule (page w))
  /\ watcher (page w')
     = (if config_watch (config (info (page w))) then Some files
        else watcher (page w))
  /\ active (page w') = active (page w)
  /\ idleTimer (page w') = idleTimer (page w)
  /\ buildFile w' = buildFile w
  /\ rebuilds w' = rebuilds w.
Proof.
  intros Hfile Hc Hs Hh Hload Hfiles Hsocket w'.
  destruct (init_run priority w json client server hs files m
              Hfile Hc Hs Hh Hload Hfiles Hsocket)
    as (w1 & Hrun & Hp & Hf & Hl).
  subst w'. rewrite Hrun. simpl. rewrite Hp, Hf. unfold rebuilds. rewrite Hl.
  unfold loaded.
  destruct (config_watch (config (info (page w)))), (truthy server); simpl;
    rewrite ?List.filter_app, ?watch_events_quiet, ?app_nil_r; repeat split.
Qed.

(** X2: what a successful [init] tells the outside.  Without watch mode,
    nothing.  In watch mode a watcher that was there is closed, then the
    new one is attached; with live reload every client of the socket is
    then sent the page's path, once each and in order, and in the embedded
    shell instead exactly the windows whose URL is not empty and has the
    page's path are reloaded. *)
Theorem init_notices (priority : bool) (w : World)
    (json client server hs files : value) (m : ssr_module) :
  buildFile w = Some (Json json) ->
  get_prop json "client" = Ok client ->
  get_prop json "server" = Ok server ->
  get_prop json "hashes" = Ok hs ->
  (truthy server = true ->
   exists code, get_prop server "component" = Ok code
                /\ instantiateSsrModule code (path (info (page w))) = Ok m) ->
  (config_watch (config (info (page w))) = true ->
   get_prop client "watchFiles" = Ok files) ->
  (config_watch (config (info (page w))) = true ->
   config_liveReload (config (info (page w))) = true ->
   isElectron = false -> liveReload (info (page w)) <> None) ->
  log (snd (init priority w))
  = log w
    ++ (if config_watch (config (info (page w)))
        then (if bool_decide (is_Some (watcher (page w)))
              then [EvWatcherClose] else [])
             ++ [EvWatch files]
             ++ (if config_liveReload (config (info (page w)))
                 then (if isElectron
                       then map EvWindowReload
                              (List.filter
                                 (fun u =>
                                    negb (String.eqb u "")
                                    && String.eqb (url_pathname u)
                                         (path (info (page w))))
                                 (windows w))
                       else match liveReload (info (page w)) with
                            | Some lr =>
                                map (fun c => EvClientSend c (path (info (page w))))
                                    (clients lr)
                            | None => []
                            end)
                 else [])
        else []).
Proof.
  intros Hfile Hc Hs Hh Hload Hfiles Hsocket.
  destruct (init_run priority w json client server hs files m
              Hfile Hc Hs Hh Hload Hfiles Hsocket)
    as (w1 & Hrun & _ & _ & Hl).
  rewrite Hrun. simpl. exact Hl.
Qed.

End WithRuntime.

(** X1 on the sample page in watch mode. *)
Lemma init_makes_ready_witness :
  let w := Sample.world_of (new_Page Sample.home_dev)
             (Some (Json Sample.built_artifact)) in
  let w' := snd (init (rt := Sample.runtime) false w) in
  fst (init (rt := Sample.runtime) false w) = Ok tt
  /\ ready (page w') = true
  /\ watcher (page w') = Some (VArr [])
  /\ ssrModule (page w') = Some Sample.the_module
  /\ buildFile w' = Some (Json Sample.built_artifact)
  /\ rebuilds w' = [].
Proof.
  destruct (init_makes_ready (rt := Sample.runtime) false
              (Sample.world_of (new_Page Sample.home_dev)
                 (Some (Json Sample.built_artifact)))
              Sample.built_artifact
              (VObj [("js", VObj [("code", VStr "<js>")]); ("watchFiles", VArr [])])
              (VObj [("component", VStr "<ssr>"); ("css", VObj [("code", VStr ".a{}")])])
              (VObj [("js", VStr "h1"); ("css", VStr "h2")])
              (VArr []) Sample.the_module
              eq_refl eq_refl eq_refl eq_refl
              ltac:(intros _; exists (VStr "<ssr>"); split; reflexivity)
              ltac:(reflexivity) ltac:(discriminate))
    as (Hok & Hready & _ & _ & _ & Hmod & Hwatch & _ & _ & Hfile & Hquiet).
  repeat split; assumption.
Defined.

(** X2 on the sample page: two clients are told; and in the embedded shell
    the one window that shows the page is reloaded. *)
Lemma init_notices_witness :
  let w := Sample.world_of (new_Page Sample.home_dev)
             (Some (Json Sample.built_artifact)) in
  log (snd (init (rt := Sample.runtime) false w))
  = [EvWatch (VArr []);
     EvClientSend 1 "/app/pages/Home.html";
     EvClientSend 2 "/app/pages/Home.html"]
  /\ log (snd (init (rt := Cases.runtime_electron) false Cases.shell_world))
     = [EvWatch (VArr []); EvWindowReload "app://host/app/pages/Home.html"].
Proof.
  split.
  - exact (init_notices (rt := Sample.runtime) false
             (Sample.world_of (new_Page Sample.home_dev)
                (Some (Json Sample.built_artifact)))
             Sample.built_artifact
             (VObj [("js", VObj [("code", VStr "<js>")]); ("watchFiles", VArr [])])
             (VObj [("component", VStr "<ssr>"); ("css", VObj [("code", VStr ".a{}")])])
             (VObj [("js", VStr "h1"); ("css", VStr "h2")])
             (VArr []) Sample.the_module
             eq_refl eq_refl eq_refl eq_refl
             ltac:(intros _; exists (VStr "<ssr>"); split; reflexivity)
             ltac:(reflexivity) ltac:(discriminate)).
  - exact (init_notices (rt := Cases.runtime_electron) false Cases.shell_world
             Sample.built_artifact
             (VObj [("js", VObj [("code", VStr "<js>")]); ("watchFiles", VArr [])])
             (VObj [("component", VStr "<ssr>"); ("css", VObj [("code", VStr ".a{}")])])
             (VObj [("js", VStr "h1"); ("css", VStr "h2")])
             (VArr []) Sample.the_module
             eq_refl eq_refl eq_refl eq_refl
             ltac:(intros _; exists (VStr "<ssr>"); split; reflexivity)
             ltac:(reflexivity) ltac:(discriminate)).
Defined.

End InitMore.

(** ** init without an artifact *)

Module SchedulerFacts.
Import JS Page Notices InitMore Scheduling.

(** C7 (as amended): when there is no artifact file, [init(priority)] only
    delegates: it makes one request to the scheduler, with that priority,
    writes no page field itself, and returns or throws as the scheduler's
    [build] does, with the page as that build leaves it.  With a scheduler
    that runs the page's [build] before it returns, [init] throws the error
    of a failing build script with the page untouched; and when the script
    writes an artifact that loads, [init] returns with [ready] set and with
    [serverComponent], [clientComponent], [hashes], the SSR module and (in
    watch mode) the watcher taken from that artifact. *)
Theorem init_delegates_build (rt : Runtime) (priority : bool) (w : World) :
  buildFile w = None ->
  init (rt := rt) priority w
  = @scheduler_build rt priority (add_event (EvSchedulerBuild priority) w)
  /\ (forall e left,
        @cmd rt (info (page w)) None = (Throw e, left) ->
        let w' := snd (init (rt := with_building_scheduler rt) priority w) in
        fst (init (rt := with_building_scheduler rt) priority w) = Throw e
        /\ page w' = page w
        /\ log w' = log w ++ [EvSchedulerBuild priority; EvBuildScript])
  /\ (forall (json client server hs files : value) (m : ssr_module),
        @cmd rt (info (page w)) None = (Ok tt, Some (Json json)) ->
        get_prop json "client" = Ok client ->
        get_prop json "server" = Ok server ->
        get_prop json "hashes" = Ok hs ->
        (truthy server = true ->
         exists code, get_prop server "component" = Ok code
                      /\ @instantiateSsrModule rt code (path (info (page w))) = Ok m) ->
        (config_watch (config (info (page w))) = true ->
         get_prop client "watchFiles" = Ok files) ->
        (config_watch (config (info (page w))) = true ->
         config_liveReload (config (info (page w))) = true ->
         @isElectron rt = false -> liveReload (info (page w)) <> None) ->
        let w' := snd (init (rt := with_building_scheduler rt) priority w) in
        fst (init (rt := with_building_scheduler rt) priority w) = Ok tt
        /\ ready (page w') = true
        /\ serverComponent (page w') = server
        /\ clientComponent (page w') = client
        /\ hashes (page w') = or_else hs (VObj [])
        /\ ssrModule (page w') = (if truthy server then Some m else ssrModule (page w))
        /\ watcher (page w')
           = (if config_watch (config (info (page w))) then Some files
              else watcher (page w))
        /\ buildFile w' = Some (Json json)
        /\ log w'
           = log w ++ [EvSchedulerBuild priority; EvBuildScript]
             ++ (if config_watch (config (info (page w)))
                 then watch_events (rt := rt) w files else [])).
Proof.
  intros Hnone.
  assert (Hbuilds : init (rt := with_building_scheduler rt) priority w
                    = build (rt := rt) (add_event (EvSchedulerBuild priority) w)).
  { unfold init, call_scheduler_build. autounfold with page_monad.
    rewrite Hnone. reflexivity. }
  split; [|split].
  - unfold init, call_scheduler_build. autounfold with page_monad.
    rewrite Hnone. reflexivity.
  - intros e left Hcmd w'. subst w'. rewrite Hbuilds.
    unfold build, runBuildScript. autounfold with page_monad. simpl.
    rewrite Hnone, Hcmd. simpl. rewrite <- app_assoc. repeat split.
  - intros json client server hs files m Hcmd Hc Hs Hh Hload Hfiles Hsocket w'.
    subst w'. rewrite Hbuilds.
    set (w2 := set_buildFile (Some (Json json))
                 (add_event EvBuildScript
                    (add_event (EvSchedulerBuild priority) w))).
    assert (Hbuild : build (rt := rt) (add_event (EvSchedulerBuild priority) w)
                     = init (rt := rt) false w2).
    { unfold build, runBuildScript, bind, emit, modify. simpl.
      rewrite Hnone, Hcmd. reflexivity. }
    rewrite Hbuild.
    destruct (init_run (rt := rt) false w2 json client server hs files m
                eq_refl Hc Hs Hh Hload Hfiles Hsocket)
      as (w3 & Hrun & Hp & Hf & Hl).
    rewrite Hrun. simpl. rewrite Hp, Hf, Hl. unfold loaded. simpl.
    rewrite <- !app_assoc. simpl.
    destruct (config_watch (config (info (page w)))), (truthy server); simpl;
      repeat split.
Qed.

(** C7 at the sample page: the scheduler builds it. *)
Lemma init_delegates_build_witness :
  buildFile (Sample.world_of (new_Page Sample.home_dev) None) = None
  /\ fst (init (rt := with_building_scheduler Sample.runtime) false
            (Sample.world_of (new_Page Sample.home_dev) None))
     = Ok tt
  /\ ready (page (snd (init (rt := with_building_scheduler Sample.runtime) false
                         (Sample.world_of (new_Page Sample.home_dev) None))))
     = true
  /\ watcher (page (snd (init (rt := with_building_scheduler Sample.runtime) false
                           (Sample.world_of (new_Page Sample.home_dev) None))))
     = Some (VArr [])
  /\ log (snd (init (rt := with_building_scheduler Sample.runtime) false
                 (Sample.world_of (new_Page Sample.home_dev) None)))
     = [EvSchedulerBuild false; EvBuildScript; EvWatch (VArr []);
        EvClientSend 1 "/app/pages/Home.html";
        EvClientSend 2 "/app/pages/Home.html"]
  /\ fst (init (rt := with_building_scheduler Cases.runtime_failing_build) true
            (Sample.world_of (new_Page Sample.home_dev) None))
     = Throw (Thrown "build script exited with code 1")
  /\ page (snd (init (rt := with_building_scheduler Cases.runtime_failing_build) true
                  (Sample.world_of (new_Page Sample.home_dev) None)))
     = new_Page Sample.home_dev.
Proof.
  destruct (init_delegates_build Sample.runtime false
              (Sample.world_of (new_Page Sample.home_dev) None) eq_refl)
    as (_ & _ & Hbuilt).
  destruct (Hbuilt Sample.built_artifact
              (VObj [("js", VObj [("code", VStr "<js>")]); ("watchFiles", VArr [])])
              (VObj [("component", VStr "<ssr>"); ("css", VObj [("code", VStr ".a{}")])])
              (VObj [("js", VStr "h1"); ("css", VStr "h2")])
              (VArr []) Sample.the_module
              eq_refl eq_refl eq_refl eq_refl
              ltac:(intros _; exists (VStr "<ssr>"); split; reflexivity)
              ltac:(reflexivity) ltac:(discriminate))
    as (Hok & Hready & _ & _ & _ & _ & Hwatch & _ & Hlog).
  destruct (init_delegates_build Cases.runtime_failing_build true
              (Sample.world_of (new_Page Sample.home_dev) None) eq_refl)
    as (_ & Hfails & _).
  destruct (Hfails (Thrown "build script exited with code 1") None eq_refl)
    as (Hthrow & Hpage & _).
  split; [reflexivity|]. split; [exact Hok|]. split; [exact Hready|].
  split; [exact Hwatch|]. split; [exact Hlog|]. split; [exact Hthrow|exact Hpage].
Defined.

(** C7 (as stated) fails: the new page has no artifact and is not ready;
    the scheduler runs its [build], the script writes the artifact, and
    [init(true)] returns with [ready] set and the components of the
    artifact in place of the [undefined] it had.  It is on this that the
    [render] that called [init(true)] goes on to the document. *)
Lemma init_returns_ready :
  buildFile (Sample.world_of (new_Page Sample.home) None) = None
  /\ ready (page (Sample.world_of (new_Page Sample.home) None)) = false
  /\ clientComponent (page (Sample.world_of (new_Page Sample.home) None)) = VUndef
  /\ fst (init (rt := with_building_scheduler Sample.runtime) true
            (Sample.world_of (new_Page Sample.home) None))
     = Ok tt
  /\ ready (page (snd (init (rt := with_building_scheduler Sample.runtime) true
                         (Sample.world_of (new_Page Sample.home) None))))
     = true
  /\ clientComponent
       (page (snd (init (rt := with_building_scheduler Sample.runtime) true
                     (Sample.world_of (new_Page Sample.home) None))))
     = VObj [("js", VObj [("code", VStr "<js>")]); ("watchFiles", VArr [])]
  /\ log (snd (init (rt := with_building_scheduler Sample.runtime) true
                 (Sample.world_of (new_Page Sample.home) None)))
     = [EvSchedulerBuild true; EvBuildScript]
  /\ (exists doc,
        fst (render (rt := with_building_scheduler Sample.runtime) Sample.hi false
               (Sample.world_of (new_Page Sample.home) None))
        = Ok doc).
Proof.
  repeat (split; [reflexivity|]). eexists. vm_compute. reflexivity.
Qed.

End SchedulerFacts.

(** ** Failures of init and build *)

Module InitErrors.
Import JS Page Notices InitMore.

Section WithRuntime.
Context {rt : Runtime}.

(** The artifact file cannot be read: the equation behind the failure. *)
Lemma init_unreadable_eq (priority : bool) (w : World) (e : error) :
  buildFile w = Some (Unreadable e) ->
  init priority w = (Throw e, add_event EvDeleteArtifact (set_buildFile None w)).
Proof.
  intros Hfile. unfold_init. repeat (rewrite Hfile; simpl). reflexivity.
Qed.

(** [init] up to the watcher, on an artifact that loads. *)
Lemma init_loaded_then (priority : bool) (w : World)
    (json client server hs : value) (m : ssr_module) :
  buildFile w = Some (Json json) ->
  get_prop json "client" = Ok client ->
  get_prop json "server" = Ok server ->
  get_prop json "hashes" = Ok hs ->
  (truthy server = true ->
   exists code, get_prop server "component" = Ok code
                /\ instantiateSsrModule code (path (info (page w))) = Ok m) ->
  exists w1,
    page w1 = loaded server client hs m (page w)
    /\ buildFile w1 = buildFile w
    /\ log w1 = log w
    /\ init priority w
       = (when (config_watch (config (info (page w)))) start_watching ;;
          modify (with_page (set_ready true))) w1.
Proof.
  intros Hfile Hc Hs Hh Hload.
  destruct (load_artifact_ok w json client server hs m Hfile Hc Hs Hh Hload)
    as (w1 & Hrun1 & Hp1 & Hf1 & _ & Hl1).
  exists w1. split; [exact Hp1|]. split; [exact Hf1|]. split; [exact Hl1|].
  assert (Hinfo : info (page w1) = info (page w)).
  { rewrite Hp1. unfold loaded. destruct (truthy server); reflexivity. }
  unfold init, try_catch, bind at 1, gets at 1. rewrite Hfile.
  unfold bind at 1. rewrite Hrun1.
  unfold bind at 1, gets at 1. cbv beta iota. rewrite Hinfo. reflexivity.
Qed.

(** X3: watch mode and live reload are configured but the engine has no
    live-reload socket (and this is not the embedded shell): [init] loads
    the artifact, attaches the watcher and then throws a TypeError.  The
    throw is outside the [try], so the artifact file is not deleted; the
    page keeps its [ready] flag and holds the new components and
    watcher. *)
Theorem init_without_socket (priority : bool) (w : World)
    (json client server hs files : value) (m : ssr_module) :
  buildFile w = Some (Json json) ->
  get_prop json "client" = Ok client ->
  get_prop json "server" = Ok server ->
  get_prop json "hashes" = Ok hs ->
  (truthy server = true ->
   exists code, get_prop server "component" = Ok code
                /\ instantiateSsrModule code (path (info (page w))) = Ok m) ->
  get_prop client "watchFiles" = Ok files ->
  config_watch (config (info (page w))) = true ->
  config_liveReload (config (info (page w))) = true ->
  isElectron = false ->
  liveReload (info (page w)) = None ->
  let w' := snd (init priority w) in
  fst (init priority w)
  = Throw (TypeError "Cannot read properties of undefined (reading 'socket')")
  /\ buildFile w' = buildFile w
  /\ ready (page w') = ready (page w)
  /\ clientComponent (page w') = client
  /\ serverComponent (page w') = server
  /\ watcher (page w') = Some files
  /\ log w' = log w ++ closing w ++ [EvWatch files].
Proof.
  intros Hfile Hc Hs Hh Hload Hfiles Hwatch Hlive He Hnone w'.
  destruct (init_loaded_then priority w json client server hs m
              Hfile Hc Hs Hh Hload)
    as (w1 & Hp1 & Hf1 & Hl1 & Heq).
  assert (Hpage : page w1
                  = (if truthy server then set_ssrModule m else fun q => q)
                      (set_components server client (or_else hs (VObj [])) (page w)))
    by exact Hp1.
  subst w'. rewrite Heq, Hwatch.
  unfold start_watching, notify_reload, closing.
  autounfold with page_monad. simpl.
  assert (Hi : info (page w1) = info (page w))
    by (rewrite Hpage; destruct (truthy server); reflexivity).
  assert (Hcl : clientComponent (page w1) = client)
    by (rewrite Hpage; destruct (truthy server); reflexivity).
  assert (Hsv : serverComponent (page w1) = server)
    by (rewrite Hpage; destruct (truthy server); reflexivity).
  assert (Hrd : ready (page w1) = ready (page w))
    by (rewrite Hpage; destruct (truthy server); reflexivity).
  assert (Hwt : watcher (page w1) = watcher (page w))
    by (rewrite Hpage; destruct (truthy server); reflexivity).
  rewrite Hwt.
  destruct (bool_decide (is_Some (watcher (page w)))); simpl;
    rewrite Hcl, Hfiles; simpl; rewrite Hi, Hlive, He; simpl;
    rewrite Hi, Hnone; simpl; rewrite Hf1, Hl1, Hcl, Hsv, Hrd;
    repeat split; try exact Hfile.
  rewrite <- app_assoc. reflexivity.
Qed.

#[local] Arguments get_prop : simpl never.

(** X4: the artifact file parses to something that has no properties to
    read ([null]): [init] throws the TypeError of the destructuring,
    deletes the artifact file and leaves the page object as it was. *)
Theorem init_artifact_not_object (priority : bool) (w : World)
    (json : value) (e : error) :
  buildFile w = Some (Json json) ->
  get_prop json "client" = Throw e ->
  let w' := snd (init priority w) in
  fst (init priority w) = Throw e
  /\ buildFile w' = None
  /\ page w' = page w
  /\ log w' = log w ++ [EvDeleteArtifact].
Proof.
  intros Hfile Hc w'. subst w'.
  unfold_init. repeat (rewrite Hfile; cbv beta iota). rewrite Hc. cbv beta iota.
  repeat (rewrite Hfile; cbv beta iota). simpl. repeat split.
Qed.

(** X5: in watch mode, an artifact whose [client] is missing, and whose
    server component is absent or loads, makes [init] throw on
    [client.watchFiles], after the [try]: the artifact's [server] and
    [client] are stored, a watcher that was there has been closed, the
    artifact file is not deleted and the page is as unready as before, so
    the next [init] reads the same file and throws the same error again.
    (A server component that does not load throws before, inside the
    [try].) *)
Theorem init_missing_client (priority again : bool) (w : World)
    (json client server hs : value) (m : ssr_module) (e : error) :
  buildFile w = Some (Json json) ->
  get_prop json "client" = Ok client ->
  get_prop json "server" = Ok server ->
  get_prop json "hashes" = Ok hs ->
  (truthy server = true ->
   exists code, get_prop server "component" = Ok code
                /\ instantiateSsrModule code (path (info (page w))) = Ok m) ->
  get_prop client "watchFiles" = Throw e ->
  config_watch (config (info (page w))) = true ->
  let w' := snd (init priority w) in
  fst (init priority w) = Throw e
  /\ buildFile w' = buildFile w
  /\ ready (page w') = ready (page w)
  /\ clientComponent (page w') = client
  /\ serverComponent (page w') = server
  /\ log w' = log w ++ closing w
  /\ fst (init again w') = Throw e.
Proof.
  intros Hfile Hc Hs Hh Hload Hfiles Hwatch w'. subst w'.
  assert (Hrun : forall p w0,
             buildFile w0 = Some (Json json) ->
             info (page w0) = info (page w) ->
             fst (init p w0) = Throw e
             /\ buildFile (snd (init p w0)) = buildFile w0
             /\ ready (page (snd (init p w0))) = ready (page w0)
             /\ clientComponent (page (snd (init p w0))) = client
             /\ serverComponent (page (snd (init p w0))) = server
             /\ log (snd (init p w0)) = log w0 ++ closing w0
             /\ info (page (snd (init p w0))) = info (page w0)).
  { intros p w0 Hfile0 Hinfo0.
    destruct (init_loaded_then p w0 json client server hs m Hfile0 Hc Hs Hh)
      as (w1 & Hp1 & Hf1 & Hl1 & Heq).
    { rewrite Hinfo0. exact Hload. }
    assert (Hpage : page w1
                    = (if truthy server then set_ssrModule m else fun q => q)
                        (set_components server client (or_else hs (VObj []))
                           (page w0)))
      by exact Hp1.
    assert (Hi : info (page w1) = info (page w0))
      by (rewrite Hpage; destruct (truthy server); reflexivity).
    assert (Hcl : clientComponent (page w1) = client)
      by (rewrite Hpage; destruct (truthy server); reflexivity).
    assert (Hsv : serverComponent (page w1) = server)
      by (rewrite Hpage; destruct (truthy server); reflexivity).
    assert (Hrd : ready (page w1) = ready (page w0))
      by (rewrite Hpage; destruct (truthy server); reflexivity).
    assert (Hwt : watcher (page w1) = watcher (page w0))
      by (rewrite Hpage; destruct (truthy server); reflexivity).
    rewrite Heq, Hinfo0, Hwatch.
    unfold start_watching, closing. autounfold with page_monad. simpl.
    rewrite Hwt.
    destruct (bool_decide (is_Some (watcher (page w0)))); simpl;
      rewrite Hcl, Hfiles; simpl; rewrite ?Hf1, ?Hl1, ?Hcl, ?Hsv, ?Hrd, ?Hi;
      rewrite ?app_nil_r; repeat split; first [exact Hfile0|exact Hinfo0]. }
  destruct (Hrun priority w Hfile eq_refl) as (Hthrow & Hf & Hr & Hcl & Hsv & Hl & Hi).
  split; [exact Hthrow|]. split; [exact Hf|]. split; [exact Hr|].
  split; [exact Hcl|]. split; [exact Hsv|]. split; [exact Hl|].
  apply Hrun; [rewrite Hf; exact Hfile|exact Hi].
Qed.

(** X7: when the build script fails, [build] throws its error without
    running [init]: the page object is untouched, the artifact file is as
    the script left it, and the only thing recorded is the run of the
    script.  A [render] with a forced rebuild then throws the same error
    before it composes anything: the payload slot and the page are as they
    were. *)
Theorem build_script_failure (w : World) (e : error) (left : option file) :
  cmd (info (page w)) (buildFile w) = (Throw e, left) ->
  let w' := snd (build w) in
  fst (build w) = Throw e
  /\ page w' = page w
  /\ buildFile w' = left
  /\ log w' = log w ++ [EvBuildScript]
  /\ forall forced forEmail,
       truthy (get "_rebuild" forced) = true ->
       fst (render forced forEmail w) = Throw e
       /\ page (snd (render forced forEmail w)) = page w
       /\ payload (snd (render forced forEmail w)) = payload w
       /\ log (snd (render forced forEmail w)) = log w ++ [EvBuildScript].
Proof.
  intros Hcmd w'. subst w'.
  assert (Hbuild : build w = (Throw e, set_buildFile left (add_event EvBuildScript w))).
  { unfold build, runBuildScript. autounfold with page_monad. simpl.
    rewrite Hcmd. reflexivity. }
  rewrite Hbuild. simpl. repeat split.
  all: rewrite ?RenderFacts.render_result, ?RenderFacts.render_world.
  all: unfold assemble, prepare; autounfold with page_monad; simpl.
  all: rewrite H; simpl; rewrite Hbuild; reflexivity.
Qed.

End WithRuntime.

(** X3 on the sample page. *)
Lemma init_without_socket_witness :
  let w := Sample.world_of (new_Page Cases.home_no_socket)
             (Some (Json Sample.built_artifact)) in
  let w' := snd (init (rt := Sample.runtime) true w) in
  fst (init (rt := Sample.runtime) true w)
  = Throw (TypeError "Cannot read properties of undefined (reading 'socket')")
  /\ buildFile w' = Some (Json Sample.built_artifact)
  /\ ready (page w') = false
  /\ watcher (page w') = Some (VArr []).
Proof.
  destruct (init_without_socket (rt := Sample.runtime) true
              (Sample.world_of (new_Page Cases.home_no_socket)
                 (Some (Json Sample.built_artifact)))
              Sample.built_artifact
              (VObj [("js", VObj [("code", VStr "<js>")]); ("watchFiles", VArr [])])
              (VObj [("component", VStr "<ssr>"); ("css", VObj [("code", VStr ".a{}")])])
              (VObj [("js", VStr "h1"); ("css", VStr "h2")])
              (VArr []) Sample.the_module
              eq_refl eq_refl eq_refl eq_refl
              ltac:(intros _; exists (VStr "<ssr>"); split; reflexivity)
              eq_refl eq_refl eq_refl eq_refl eq_refl)
    as (Hthrow & Hfile & Hready & _ & _ & Hwatch & _).
  repeat split; assumption.
Defined.

(** X4 on an artifact file that holds [null]. *)
Lemma init_artifact_not_object_witness :
  let w := Sample.world_of (new_Page Sample.home) (Some (Json VNull)) in
  fst (init (rt := Sample.runtime) false w)
  = Throw (TypeError "Cannot read properties of null (reading 'client')")
  /\ buildFile (snd (init (rt := Sample.runtime) false w)) = None.
Proof.
  destruct (init_artifact_not_object (rt := Sample.runtime) false
              (Sample.world_of (new_Page Sample.home) (Some (Json VNull)))
              VNull
              (TypeError "Cannot read properties of null (reading 'client')")
              eq_refl eq_refl)
    as (Hthrow & Hfile & _).
  split; assumption.
Defined.

(** X5 on an artifact without [client]: with no server component, and
    with one that loads. *)
Lemma init_missing_client_witness :
  let w := Sample.world_of (new_Page Sample.home_dev)
             (Some (Json Cases.clientless_artifact)) in
  let v := Sample.world_of (new_Page Sample.home_dev)
             (Some (Json Cases.server_only_artifact)) in
  let w' := snd (init (rt := Sample.runtime) true w) in
  let v' := snd (init (rt := Sample.runtime) true v) in
  (fst (init (rt := Sample.runtime) true w)
   = Throw (TypeError "Cannot read properties of undefined (reading 'watchFiles')")
   /\ buildFile w' = Some (Json Cases.clientless_artifact)
   /\ fst (init (rt := Sample.runtime) false w')
      = Throw (TypeError "Cannot read properties of undefined (reading 'watchFiles')"))
  /\ (fst (init (rt := Sample.runtime) true v)
      = Throw (TypeError "Cannot read properties of undefined (reading 'watchFiles')")
      /\ buildFile v' = Some (Json Cases.server_only_artifact)
      /\ ready (page v') = false
      /\ fst (init (rt := Sample.runtime) false v')
         = Throw (TypeError "Cannot read properties of undefined (reading 'watchFiles')")).
Proof.
  destruct (init_missing_client (rt := Sample.runtime) true false
              (Sample.world_of (new_Page Sample.home_dev)
                 (Some (Json Cases.clientless_artifact)))
              Cases.clientless_artifact VUndef VNull (VObj [("js", VStr "h1")])
              Sample.the_module
              (TypeError "Cannot read properties of undefined (reading 'watchFiles')")
              eq_refl eq_refl eq_refl eq_refl
              ltac:(discriminate) eq_refl eq_refl)
    as (Hthrow & Hfile & _ & _ & _ & _ & Hagain).
  destruct (init_missing_client (rt := Sample.runtime) true false
              (Sample.world_of (new_Page Sample.home_dev)
                 (Some (Json Cases.server_only_artifact)))
              Cases.server_only_artifact VUndef
              (VObj [("component", VStr "<ssr>"); ("css", VObj [("code", VStr ".a{}")])])
              (VObj [("js", VStr "h1"); ("css", VStr "h2")])
              Sample.the_module
              (TypeError "Cannot read properties of undefined (reading 'watchFiles')")
              eq_refl eq_refl eq_refl eq_refl
              ltac:(intros _; exists (VStr "<ssr>"); split; reflexivity)
              eq_refl eq_refl)
    as (Hthrow' & Hfile' & Hready' & _ & _ & _ & Hagain').
  repeat split; assumption.
Defined.

(** X7 on the sample page with a failing build script. *)
Lemma build_script_failure_witness :
  let w := Sample.world_of (new_Page Sample.home) None in
  fst (build (rt := Cases.runtime_failing_build) w)
  = Throw (Thrown "build script exited with code 1")
  /\ page (snd (build (rt := Cases.runtime_failing_build) w)) = new_Page Sample.home
  /\ log (snd (build (rt := Cases.runtime_failing_build) w)) = [EvBuildScript].
Proof.
  destruct (build_script_failure (rt := Cases.runtime_failing_build)
              (Sample.world_of (new_Page Sample.home) None)
              (Thrown "build script exited with code 1") None eq_refl)
    as (Hthrow & Hpage & _ & Hlog & _).
  repeat split; assumption.
Defined.

End InitErrors.

(** ** More on render *)

Module RenderMore.
Import JS Page Hook InitMore.

Section WithRuntime.
Context {rt : Runtime}.

Lemma assemble_after (locals : obj) (forEmail : bool) (w w1 : World) :
  prepare locals w = (Ok tt, w1) ->
  assemble locals forEmail w = compose locals forEmail w1.
Proof. intros Hprep. unfold assemble, bind. rewrite Hprep. reflexivity. Qed.

(** Lines 192-216 and what follows, in terms of the hook's call. *)
Lemma compose_hook (locals : obj) (forEmail : bool) (w : World) :
  fst (compose locals forEmail w)
  = match fst (run_hook (config (info (page w))) (context locals)) with
    | Ok _ => fill (page w)
                (snd (run_hook (config (info (page w))) (context locals))) forEmail
    | Throw e => Throw e
    end
  /\ payload (snd (compose locals forEmail w))
     = Some (snd (run_hook (config (info (page w))) (context locals))).
Proof.
  unfold compose, run_hook. autounfold with page_monad. simpl.
  destruct (config_prerender (config (info (page w)))) as [hook|]; simpl.
  - destruct (hook (context locals)) as [[[]|e] ctx]; simpl; split; reflexivity.
  - split; reflexivity.
Qed.


(** X9: [render] on a page that is not ready and has no artifact asks the
    scheduler for a build with priority [true], and then composes the
    document from the page as the scheduler leaves it, without looking at
    [ready] again: when the scheduler returns before anything is built,
    [render] throws the TypeError of reading [js] of the missing client
    component. *)
Theorem render_unbuilt_page (locals : obj) (forEmail : bool) (w : World) :
  ready (page w) = false ->
  truthy (get "_rebuild" locals) = false ->
  buildFile w = None ->
  assemble locals forEmail w
  = (call_scheduler_build true ;; compose locals forEmail) w
  /\ (forall w1,
        scheduler_build true (add_event (EvSchedulerBuild true) w) = (Ok tt, w1) ->
        serverComponent (page w1) = VUndef ->
        clientComponent (page w1) = VUndef ->
        config_prerender (config (info (page w1))) = None ->
        fst (render locals forEmail w)
        = Throw (TypeError "Cannot read properties of undefined (reading 'js')")).
Proof.
  intros Hready Hforce Hnone.
  assert (Hprep : prepare locals w = call_scheduler_build true w).
  { unfold prepare. autounfold with page_monad. simpl. rewrite Hforce, Hready.
    simpl. unfold_init. rewrite Hnone. reflexivity. }
  assert (Hasm : assemble locals forEmail w
                 = (call_scheduler_build true ;; compose locals forEmail) w).
  { unfold assemble, bind. rewrite Hprep. reflexivity. }
  split; [exact Hasm|].
  intros w1 Hsched Hserver Hclient Hhook.
  rewrite RenderFacts.render_result, Hasm.
  unfold call_scheduler_build. autounfold with page_monad. simpl.
  rewrite Hsched. rewrite (ArtifactFacts.compose_no_hook _ _ _ Hhook). simpl.
  unfold fill, render_ssr. rewrite Hserver, Hclient. reflexivity.
Qed.

(** X10: a [render] that gets past the build and [init] always overwrites
    the payload slot with its context, whether or not the pre-render hook,
    the SSR code or the template then throw.  The slot holds the fresh
    context when there is no hook, and otherwise the context as the hook
    left it, also when the hook threw; in that case [render] throws what
    the hook threw. *)
Theorem render_publishes_context (locals : obj) (forEmail : bool) (w w1 : World) :
  prepare locals w = (Ok tt, w1) ->
  payload (snd (render locals forEmail w))
  = Some match config_prerender (config (info (page w1))) with
         | None => context locals
         | Some hook => snd (hook (context locals))
         end
  /\ (forall hook e,
        config_prerender (config (info (page w1))) = Some hook ->
        fst (hook (context locals)) = Throw e ->
        fst (render locals forEmail w) = Throw e).
Proof.
  intros Hprep.
  destruct (compose_hook locals forEmail w1) as (Hfst & Hpay).
  split.
  - rewrite RenderFacts.render_world, (assemble_after _ _ _ _ Hprep), Hpay.
    unfold run_hook.
    destruct (config_prerender (config (info (page w1)))); reflexivity.
  - intros hook e Hhook Hthrow.
    rewrite RenderFacts.render_result, (assemble_after _ _ _ _ Hprep), Hfst.
    unfold run_hook. rewrite Hhook, Hthrow. reflexivity.
Qed.

(** X11: a forced rebuild of a ready page whose build script leaves an
    unreadable artifact makes [render] throw the read error and delete the
    file, and the page goes on as before: it is still ready, and every
    later [render] without a forced rebuild returns what it would have
    returned before the failed rebuild. *)
Theorem failed_rebuild_keeps_serving
    (forced : obj) (forEmail : bool) (w : World) (e : error) :
  ready (page w) = true ->
  truthy (get "_rebuild" forced) = true ->
  cmd (info (page w)) (buildFile w) = (Ok tt, Some (Unreadable e)) ->
  let w' := snd (render forced forEmail w) in
  fst (render forced forEmail w) = Throw e
  /\ buildFile w' = None
  /\ ready (page w') = true
  /\ payload w' = payload w
  /\ forall locals email,
       truthy (get "_rebuild" locals) = false ->
       fst (render locals email w') = fst (render locals email w).
Proof.
  intros Hready Hforce Hcmd w'.
  assert (Hasm : assemble forced forEmail w
                 = (Throw e,
                    add_event EvDeleteArtifact
                      (set_buildFile None
                         (set_buildFile (Some (Unreadable e))
                            (add_event EvBuildScript w))))).
  { unfold assemble, prepare, build, runBuildScript.
    autounfold with page_monad. simpl. rewrite Hforce. simpl. rewrite Hcmd.
    rewrite (InitErrors.init_unreadable_eq false _ e) by reflexivity.
    reflexivity. }
  assert (Hw' : page w' = page w /\ buildFile w' = None /\ payload w' = payload w).
  { unfold w'. rewrite RenderFacts.render_world, Hasm. repeat split. }
  destruct Hw' as (Hpage & Hfile & Hpay).
  split; [rewrite RenderFacts.render_result, Hasm; reflexivity|].
  split; [exact Hfile|]. split; [rewrite Hpage; exact Hready|].
  split; [exact Hpay|].
  intros locals email Hplain.
  rewrite !RenderFacts.render_result.
  rewrite (assemble_after locals email w' w')
    by (apply RenderFacts.prepare_ready; [rewrite Hpage|]; assumption).
  rewrite (assemble_after locals email w w)
    by (apply RenderFacts.prepare_ready; assumption).
  rewrite (RenderFacts.compose_result locals email w' w Hpage). reflexivity.
Qed.

End WithRuntime.


(** X9 on a new page, with a scheduler that only queues the request. *)
Lemma render_unbuilt_page_witness :
  let w := Sample.world_of (new_Page Sample.home) None in
  fst (render (rt := Sample.runtime) Sample.hi false w)
  = Throw (TypeError "Cannot read properties of undefined (reading 'js')")
  /\ log (snd (render (rt := Sample.runtime) Sample.hi false w))
     = [EvSchedulerBuild true].
Proof.
  destruct (render_unbuilt_page (rt := Sample.runtime) Sample.hi false
              (Sample.world_of (new_Page Sample.home) None)
              eq_refl eq_refl eq_refl)
    as (_ & Hthrow).
  split; [|reflexivity].
  exact (Hthrow _ eq_refl eq_refl eq_refl eq_refl).
Defined.

(** X10 on the sample page, without a hook and with a hook that changes
    the context and then throws. *)
Lemma render_publishes_context_witness :
  payload (snd (render (rt := Sample.runtime) Sample.hi false
                  (Sample.world_of (new_Page Sample.home)
                     (Some (Json Sample.built_artifact)))))
  = Some [("__headOnce", VFun HeadOnce); ("title", VStr "Hi")]
  /\ payload (snd (render (rt := Sample.runtime) Sample.hi false
                     (Sample.world_of
                        (new_Page (Cases.home_hooked Cases.hook_user_throws))
                        (Some (Json Sample.built_artifact)))))
     = Some [("__headOnce", VFun HeadOnce); ("title", VStr "Hi");
             ("user", VStr "ann")]
  /\ fst (render (rt := Sample.runtime) Sample.hi false
            (Sample.world_of
               (new_Page (Cases.home_hooked Cases.hook_user_throws))
               (Some (Json Sample.built_artifact))))
     = Throw (Thrown "store is closed").
Proof.
  destruct (render_publishes_context (rt := Sample.runtime) Sample.hi false
              (Sample.world_of (new_Page Sample.home)
                 (Some (Json Sample.built_artifact)))
              _ eq_refl)
    as (Hplain & _).
  destruct (render_publishes_context (rt := Sample.runtime) Sample.hi false
              (Sample.world_of
                 (new_Page (Cases.home_hooked Cases.hook_user_throws))
                 (Some (Json Sample.built_artifact)))
              _ eq_refl)
    as (Hhooked & Hthrow).
  split; [exact Hplain|]. split; [exact Hhooked|].
  exact (Hthrow Cases.hook_user_throws (Thrown "store is closed") eq_refl eq_refl).
Defined.

(** X11 on the sample page, rebuilt by a script that truncates the
    artifact. *)
Lemma failed_rebuild_keeps_serving_witness :
  let w := snd (render (rt := Sample.runtime_truncating) Sample.hi false
                  (Sample.world_of (new_Page Sample.home)
                     (Some (Json Sample.built_artifact)))) in
  let w' := snd (render (rt := Sample.runtime_truncating)
                   [("_rebuild", VBool true)] false w) in
  fst (render (rt := Sample.runtime_truncating) [("_rebuild", VBool true)] false w)
  = Throw (Thrown "Unexpected end of JSON input")
  /\ buildFile w' = None
  /\ fst (render (rt := Sample.runtime_truncating) Sample.hi false w')
     = fst (render (rt := Sample.runtime_truncating) Sample.hi false w).
Proof.
  destruct (failed_rebuild_keeps_serving (rt := Sample.runtime_truncating)
              [("_rebuild", VBool true)] false
              (snd (render (rt := Sample.runtime_truncating) Sample.hi false
                      (Sample.world_of (new_Page Sample.home)
                         (Some (Json Sample.built_artifact)))))
              (Thrown "Unexpected end of JSON input") eq_refl eq_refl eq_refl)
    as (Hthrow & Hfile & _ & _ & Hserve).
  split; [exact Hthrow|]. split; [exact Hfile|].
  exact (Hserve Sample.hi false eq_refl).
Defined.

End RenderMore.

(** ** Activity over the life of a page *)

Module ActivityFacts.
Import JS Page Activity TimerFacts.

Section WithRuntime.
Context {rt : Runtime}.

Lemma elapse_now (d : N) (w : World) : now (elapse d w) = now w + d.
Proof. reflexivity. Qed.

Lemma elapse_idle_free (d : N) (w : World) :
  idle_timers w = [] ->
  page (elapse d w) = page w /\ idle_timers (elapse d w) = [].
Proof.
  unfold idle_timers, elapse. intros Hts. simpl.
  rewrite fire_page, fire_timers. simpl.
  rewrite existsb_filter, !(filter_swap is_idle), Hts. simpl. split; reflexivity.
Qed.

Lemma on_change_frame (w : World) :
  active (page (exec on_change w)) = active (page w)
  /\ idleTimer (page (exec on_change w)) = idleTimer (page w)
  /\ idle_timers (exec on_change w) = idle_timers w
  /\ now (exec on_change w) = now w
  /\ watcher (page (exec on_change w)) = watcher (page w)
  /\ info (page (exec on_change w)) = info (page w).
Proof.
  unfold idle_timers, on_change, sleep_then, change_resume, scheduleBuild, setTimeout.
  autounfold with page_monad. simpl.
  destruct (negb isElectron && negb (active (page w)))%bool; simpl;
    [rewrite filter_enqueue_skip by reflexivity|]; repeat split.
Qed.

Lemma step_own_message (w : World) (lr : LiveReload) :
  liveReload (info (page w)) = Some lr ->
  step (WsMessage (path (info (page w)))) w = exec heartbeat w.
Proof.
  intros Hlr. simpl. rewrite Hlr. unfold on_message.
  autounfold with page_monad. simpl. rewrite String.eqb_refl. reflexivity.
Qed.

Lemma heartbeat_activity (w : World) :
  idle_inv w = true -> activity_inv (exec heartbeat w) = true.
Proof.
  intros Hinv. unfold activity_inv. rewrite (heartbeat_inv w Hinv).
  destruct (heartbeat_post w Hinv) as (Hact & Hid & Hts & Hnow).
  unfold has_handle, timely. rewrite Hact, Hid, Hts, Hnow. simpl.
  rewrite N.leb_refl. reflexivity.
Qed.

Lemma activity_idle (w : World) : activity_inv w = true -> idle_inv w = true.
Proof.
  unfold activity_inv. intros H.
  apply andb_true_iff in H. destruct H as [H _].
  apply andb_true_iff in H. destruct H as [H _]. exact H.
Qed.

Lemma elapse_activity (d : N) (w : World) :
  activity_inv w = true -> activity_inv (elapse d w) = true.
Proof.
  unfold activity_inv, idle_inv, has_handle, timely. intros Hinv.
  destruct (idle_timers w) as [|t0 [|t1 l]] eqn:Hts.
  - destruct (elapse_idle_free d w Hts) as (-> & ->). exact Hinv.
  - destruct (idleTimer (page w)) as [id|] eqn:Hid; [|discriminate].
    destruct (N.le_gt_cases (due t0) (now w + d)) as [Hdue|Hdue].
    + destruct (elapse_expires d w t0 Hts Hdue) as (-> & -> & ->). reflexivity.
    + destruct (elapse_keeps d w t0 Hts Hdue) as (-> & -> & ->).
      rewrite Hid. simpl in *.
      destruct (Nat.eqb (tid t0) id); [|discriminate].
      destruct (active (page w)); [|discriminate]. simpl in *.
      rewrite andb_true_r in *. apply N.leb_le. apply N.leb_le in Hinv. lia.
  - destruct (idleTimer (page w)); discriminate.
Qed.

Lemma on_change_activity (w : World) :
  activity_inv w = true -> activity_inv (exec on_change w) = true.
Proof.
  destruct (on_change_frame w) as (Ha & Hi & Hts & Hnow & _).
  unfold activity_inv, idle_inv, has_handle, timely.
  rewrite Ha, Hi, Hts, Hnow. trivial.
Qed.

Lemma step_activity (i : input) (w : World) :
  activity_inv w = true -> activity_inv (step i w) = true.
Proof.
  intros Hinv. destruct i as [p| |d]; simpl.
  - destruct (liveReload (info (page w))); [|exact Hinv].
    unfold on_message. autounfold with page_monad. simpl.
    destruct (String.eqb p (path (info (page w)))); [|exact Hinv].
    apply heartbeat_activity, activity_idle, Hinv.
  - destruct (watcher (page w)); [|exact Hinv]. apply on_change_activity, Hinv.
  - apply elapse_activity, Hinv.
Qed.

Lemma run_activity (inputs : list input) : forall w : World,
  activity_inv w = true -> activity_inv (run inputs w) = true.
Proof.
  induction inputs as [|i inputs IH]; intros w Hinv; simpl; [exact Hinv|].
  apply IH, step_activity, Hinv.
Qed.

Lemma new_page_activity (i : PageInfo) (w : World) :
  page w = new_Page i -> idle_timers w = [] -> activity_inv w = true.
Proof.
  intros Hpage Hts. unfold activity_inv, idle_inv, has_handle, timely.
  rewrite Hpage, Hts. reflexivity.
Qed.

(** What the invariant says. *)
Lemma activity_inv_spec (w : World) :
  activity_inv w = true ->
  (active (page w) = true ->
   exists t, idle_timers w = [t] /\ idleTimer (page w) = Some (tid t)
             /\ due t <= now w + idleTimeout)
  /\ (active (page w) = false ->
      idle_timers w = [] /\ idleTimer (page w) = None).
Proof.
  unfold activity_inv, idle_inv, has_handle, timely. intros Hinv.
  rewrite !andb_true_iff in Hinv. destruct Hinv as [[Hidle Heq] Htimely].
  apply Bool.eqb_prop in Heq.
  destruct (idleTimer (page w)) as [id|], (idle_timers w) as [|t [|t1 l]];
    simpl in *; try discriminate; rewrite Heq.
  - split; [intros _|discriminate]. exists t.
    rewrite andb_true_r in Htimely.
    apply Nat.eqb_eq in Hidle. apply N.leb_le in Htimely. subst id.
    repeat split. exact Htimely.
  - split; [discriminate|]. intros _. split; reflexivity.
Qed.

(** X12: whatever socket messages, file changes and lapses of time a new
    page goes through, it is active exactly while one idle timer is
    pending: an active page has exactly one pending idle timer, its handle
    is [idleTimer] and it is due within 15 seconds; an inactive page has
    none and [idleTimer] is cleared. *)
Theorem activity_invariant (i : PageInfo) (w : World) (inputs : list input) :
  page w = new_Page i ->
  idle_timers w = [] ->
  let w' := run inputs w in
  (active (page w') = true ->
   exists t, idle_timers w' = [t] /\ idleTimer (page w') = Some (tid t)
             /\ due t <= now w' + idleTimeout)
  /\ (active (page w') = false ->
      idle_timers w' = [] /\ idleTimer (page w') = None).
Proof.
  intros Hpage Hts w'.
  apply activity_inv_spec, run_activity, (new_page_activity i); assumption.
Qed.

(** X13: however a new page got to where it is, 15 seconds without any
    message or file change leave it inactive, with [idleTimer] cleared and
    no idle timer pending. *)
Theorem silence_deactivates (i : PageInfo) (w : World) (inputs : list input) (d : N) :
  page w = new_Page i ->
  idle_timers w = [] ->
  idleTimeout <= d ->
  let w' := elapse d (run inputs w) in
  active (page w') = false
  /\ idleTimer (page w') = None
  /\ idle_timers w' = [].
Proof.
  intros Hpage Hts Hd w'.
  assert (Hinv : activity_inv (run inputs w) = true)
    by (apply run_activity, (new_page_activity i); assumption).
  destruct (activity_inv_spec _ Hinv) as (Hon & Hoff).
  destruct (active (page (run inputs w))) eqn:Hact.
  - destruct (Hon eq_refl) as (t & Hts' & _ & Hdue).
    apply (elapse_expires d _ t Hts'). lia.
  - destruct (Hoff eq_refl) as (Hts' & Hid).
    destruct (elapse_idle_free d _ Hts') as (Hp & Hnone).
    unfold w'. rewrite Hp, Hnone, Hact, Hid. repeat split.
Qed.

Lemma heartbeat_info (w : World) : info (page (exec heartbeat w)) = info (page w).
Proof.
  unfold heartbeat, setTimeout, clearTimeout. autounfold with page_monad. simpl.
  destruct (idleTimer (page w)); reflexivity.
Qed.

Lemma elapse_info (d : N) (w : World) : info (page (elapse d w)) = info (page w).
Proof.
  unfold elapse. simpl. rewrite fire_page. destruct (existsb _ _); reflexivity.
Qed.

(** The page after a heartbeat and then, for each gap, that long a silence
    followed by a message with the page's own path: the pending expiry is
    that of the last heartbeat. *)
Lemma heartbeats_fresh (own : string) (gaps : list N) : forall w : World,
  own = path (info (page w)) ->
  liveReload (info (page w)) <> None ->
  idle_inv w = true ->
  Forall (fun g => g < idleTimeout) gaps ->
  let w' := run (flat_map (fun g => [Elapse g; WsMessage own]) gaps)
                (exec heartbeat w) in
  active (page w') = true
  /\ exists t, idle_timers w' = [t] /\ due t = now w' + idleTimeout.
Proof.
  induction gaps as [|g gaps IH]; intros w Hown Hlr Hinv Hgaps.
  - destruct (heartbeat_post w Hinv) as (Hact & _ & Hts & Hnow). simpl.
    split; [exact Hact|]. eexists. split; [exact Hts|].
    simpl. rewrite Hnow. reflexivity.
  - inversion Hgaps as [|? ? Hg Hrest]; subst.
    destruct (liveReload (info (page w))) as [lr|] eqn:Hsock; [|now destruct Hlr].
    assert (Hinfo : info (page (elapse g (exec heartbeat w))) = info (page w))
      by (rewrite elapse_info; apply heartbeat_info).
    assert (Hstep : step (WsMessage (path (info (page w))))
                         (elapse g (exec heartbeat w))
                    = exec heartbeat (elapse g (exec heartbeat w))).
    { rewrite <- Hinfo at 1. apply (step_own_message _ lr).
      rewrite Hinfo. exact Hsock. }
    cbv zeta.
    change (run (flat_map (fun g0 => [Elapse g0; WsMessage (path (info (page w)))])
                   (g :: gaps)) (exec heartbeat w))
      with (run (flat_map (fun g0 => [Elapse g0; WsMessage (path (info (page w)))])
                   gaps)
              (step (WsMessage (path (info (page w))))
                 (elapse g (exec heartbeat w)))).
    rewrite Hstep.
    apply (IH (elapse g (exec heartbeat w))).
    + rewrite Hinfo. reflexivity.
    + rewrite Hinfo, Hsock. discriminate.
    + apply elapse_inv, heartbeat_inv, Hinv.
    + exact Hrest.
Qed.

(** X14: a page whose socket delivers a heartbeat, and then further
    heartbeats each less than 15 seconds after the one before, is active
    after the last of them and stays active for anything less than 15
    seconds more. *)
Theorem heartbeats_keep_active (w : World) (gaps : list N) (d : N) :
  idle_inv w = true ->
  liveReload (info (page w)) <> None ->
  Forall (fun g => g < idleTimeout) gaps ->
  d < idleTimeout ->
  let own := path (info (page w)) in
  let w' := run (WsMessage own :: flat_map (fun g => [Elapse g; WsMessage own]) gaps)
                w in
  active (page w') = true /\ active (page (elapse d w')) = true.
Proof.
  intros Hinv Hlr Hgaps Hd own w'.
  destruct (liveReload (info (page w))) as [lr|] eqn:Hsock; [|now destruct Hlr].
  assert (Hw' : w' = run (flat_map (fun g => [Elapse g; WsMessage own]) gaps)
                       (exec heartbeat w)).
  { unfold w', own. rewrite <- (step_own_message w lr Hsock). reflexivity. }
  destruct (heartbeats_fresh own gaps w eq_refl) as (Hact & t & Hts & Hdue);
    [rewrite Hsock; discriminate|exact Hinv|exact Hgaps|].
  rewrite Hw'. split; [exact Hact|].
  destruct (elapse_keeps d _ t Hts) as (Hp & _); [lia|].
  rewrite Hp. exact Hact.
Qed.

Lemma run_cons (i : input) (inputs : list input) (w : World) :
  run (i :: inputs) w = run inputs (step i w).
Proof. reflexivity. Qed.

Lemma Forall_enqueue (P : timer -> Prop) (t : timer) (ts : list timer) :
  P t -> Forall P ts -> Forall P (enqueue t ts).
Proof.
  intros Ht Hts. induction Hts as [|t' ts Ht' Hts IH]; simpl.
  - constructor; [exact Ht|constructor].
  - destruct (due t' <=? due t); repeat constructor; assumption.
Qed.

Lemma length_enqueue (t : timer) (ts : list timer) :
  length (enqueue t ts) = S (length ts).
Proof.
  induction ts as [|t' ts IH]; simpl; [reflexivity|].
  destruct (due t' <=? due t); simpl; [rewrite IH|]; reflexivity.
Qed.

Lemma filter_keeps_all {A} (f : A -> bool) (l : list A) :
  Forall (fun x => f x = true) l -> List.filter f l = l.
Proof.
  induction 1 as [|x l Hx Hl IH]; simpl; [reflexivity|].
  rewrite Hx, IH. reflexivity.
Qed.

Lemma map_const_repeat {A B} (b : B) (l : list A) :
  map (fun _ => b) l = repeat b (length l).
Proof. induction l as [|x l IH]; simpl; [reflexivity|]. rewrite IH. reflexivity. Qed.

Lemma on_change_at_once (w : World) :
  isElectron = true \/ active (page w) = true ->
  log (exec on_change w) = log w ++ [EvScheduleBuild (active (page w))].
Proof.
  intros Hnow. unfold on_change, sleep_then, change_resume, scheduleBuild, setTimeout.
  autounfold with page_monad. simpl.
  assert (Hc : (negb isElectron && negb (active (page w)))%bool = false).
  { destruct Hnow as [-> | ->]; [reflexivity|apply andb_false_r]. }
  rewrite Hc. reflexivity.
Qed.

Lemma on_change_delayed (w : World) :
  isElectron = false -> active (page w) = false ->
  log (exec on_change w) = log w
  /\ timers (exec on_change w) = enqueue (resume_from w) (timers w).
Proof.
  intros He Ha. unfold on_change, sleep_then, change_resume, scheduleBuild, setTimeout.
  autounfold with page_monad. simpl. rewrite He, Ha. simpl. split; reflexivity.
Qed.

(** Changes on a page that asks at once. *)
Lemma changes_at_once (k : nat) : forall w : World,
  watcher (page w) <> None ->
  isElectron = true \/ active (page w) = true ->
  log (run (repeat FileChange k) w)
  = log w ++ repeat (EvScheduleBuild (active (page w))) k.
Proof.
  induction k as [|k IH]; intros w Hwatch Hnow; simpl repeat.
  - simpl. rewrite app_nil_r. reflexivity.
  - rewrite run_cons.
    destruct (on_change_frame w) as (Ha & _ & _ & _ & Hw & _).
    assert (Hstep : step FileChange w = exec on_change w).
    { simpl. destruct (watcher (page w)); [reflexivity|now destruct Hwatch]. }
    rewrite Hstep, IH; [|rewrite Hw; exact Hwatch|rewrite Ha; exact Hnow].
    rewrite Ha, (on_change_at_once w Hnow), <- app_assoc. reflexivity.
Qed.

(** Changes on a page that waits. *)
Lemma changes_delayed (k : nat) : forall w : World,
  watcher (page w) <> None ->
  isElectron = false -> active (page w) = false ->
  Forall (fun t => is_resume t = true /\ due t <= now w + 100) (timers w) ->
  let w' := run (repeat FileChange k) w in
  log w' = log w /\ active (page w') = false /\ now w' = now w
  /\ Forall (fun t => is_resume t = true /\ due t <= now w + 100) (timers w')
  /\ length (timers w') = (length (timers w) + k)%nat.
Proof.
  induction k as [|k IH]; intros w Hwatch He Ha Hts; simpl repeat.
  - simpl. rewrite Nat.add_0_r. repeat split; assumption.
  - cbv zeta. rewrite run_cons.
    destruct (on_change_frame w) as (Ha' & _ & _ & Hnow & Hw & _).
    destruct (on_change_delayed w He Ha) as (Hlog & Htimers).
    assert (Hstep : step FileChange w = exec on_change w).
    { simpl. destruct (watcher (page w)); [reflexivity|now destruct Hwatch]. }
    rewrite Hstep.
    destruct (IH (exec on_change w)) as (H1 & H2 & H3 & H4 & H5).
    + rewrite Hw. exact Hwatch.
    + exact He.
    + rewrite Ha'. exact Ha.
    + rewrite Htimers, Hnow. apply Forall_enqueue; [|exact Hts].
      split; [reflexivity|]. simpl. lia.
    + rewrite H1, H3, H5, Hlog, Hnow, Htimers, length_enqueue.
      rewrite Hnow in H4. repeat split; try assumption. lia.
Qed.

(** X15: the page does not coalesce change notifications.  [k]
    notifications on an active page, or in the embedded shell, make [k]
    requests at once, each with the page's [active] flag; [k] notifications
    on an inactive page with no timer pending make none at first and [k]
    requests without priority once 100 ms have passed. *)
Theorem changes_not_coalesced (w : World) (k : nat) :
  watcher (page w) <> None ->
  (isElectron = true \/ active (page w) = true ->
   log (run (repeat FileChange k) w)
   = log w ++ repeat (EvScheduleBuild (active (page w))) k)
  /\ (isElectron = false -> active (page w) = false -> timers w = [] ->
      log (run (repeat FileChange k) w) = log w
      /\ forall d, 100 <= d ->
           log (elapse d (run (repeat FileChange k) w))
           = log w ++ repeat (EvScheduleBuild false) k).
Proof.
  intros Hwatch. split.
  - intros Hnow. apply changes_at_once; assumption.
  - intros He Ha Hnone.
    destruct (changes_delayed k w Hwatch He Ha) as (Hlog & Hact & Hnow & Hall & Hlen).
    { rewrite Hnone. constructor. }
    split; [exact Hlog|]. intros d Hd.
    unfold elapse. simpl. rewrite fire_log_inactive by (simpl; exact Hact).
    simpl. rewrite Hlog. f_equal.
    rewrite (filter_keeps_all (fun t => due t <=? _ + d)).
    + rewrite (filter_keeps_all is_resume).
      * rewrite map_const_repeat, Hlen, Hnone. reflexivity.
      * eapply List.Forall_impl; [|exact Hall]. intros t [Hr _]. exact Hr.
    + eapply List.Forall_impl; [|exact Hall]. intros t [_ Hdue].
      apply N.leb_le. lia.
Qed.

End WithRuntime.

(** X12 on the sample page: a heartbeat, a change, and 20 seconds. *)
Lemma activity_invariant_witness :
  let w := Sample.world_of (new_Page Sample.home_dev) None in
  let w1 := run (rt := Sample.runtime)
              [WsMessage "/app/pages/Home.html"; Elapse 5000] w in
  let w2 := run (rt := Sample.runtime)
              [WsMessage "/app/pages/Home.html"; Elapse 20000] w in
  (exists t, idle_timers w1 = [t] /\ idleTimer (page w1) = Some (tid t)
             /\ due t <= now w1 + idleTimeout)
  /\ idle_timers w2 = [] /\ idleTimer (page w2) = None.
Proof.
  destruct (activity_invariant (rt := Sample.runtime) Sample.home_dev
              (Sample.world_of (new_Page Sample.home_dev) None)
              [WsMessage "/app/pages/Home.html"; Elapse 5000] eq_refl eq_refl)
    as (Hon & _).
  destruct (activity_invariant (rt := Sample.runtime) Sample.home_dev
              (Sample.world_of (new_Page Sample.home_dev) None)
              [WsMessage "/app/pages/Home.html"; Elapse 20000] eq_refl eq_refl)
    as (_ & Hoff).
  split; [exact (Hon eq_refl)|exact (Hoff eq_refl)].
Defined.

(** X13 on the sample page: a heartbeat, 10 seconds, and then 15 more. *)
Lemma silence_deactivates_witness :
  let w := Sample.world_of (new_Page Sample.home_dev) None in
  active (page (run (rt := Sample.runtime)
                  [WsMessage "/app/pages/Home.html"; Elapse 10000] w)) = true
  /\ active (page (elapse 15000
                     (run (rt := Sample.runtime)
                        [WsMessage "/app/pages/Home.html"; Elapse 10000] w)))
     = false.
Proof.
  destruct (silence_deactivates (rt := Sample.runtime) Sample.home_dev
              (Sample.world_of (new_Page Sample.home_dev) None)
              [WsMessage "/app/pages/Home.html"; Elapse 10000] 15000
              eq_refl eq_refl ltac:(vm_compute; discriminate))
    as (Hoff & _).
  split; [reflexivity|exact Hoff].
Defined.

(** X14 on the sample page: heartbeats 10 and 14 seconds apart. *)
Lemma heartbeats_keep_active_witness :
  let w := Sample.world_of (new_Page Sample.home_dev) None in
  let w' := run (rt := Sample.runtime)
              [WsMessage "/app/pages/Home.html";
               Elapse 10000; WsMessage "/app/pages/Home.html";
               Elapse 14000; WsMessage "/app/pages/Home.html"] w in
  now w' = 24000
  /\ active (page w') = true
  /\ active (page (elapse 14999 w')) = true.
Proof.
  destruct (heartbeats_keep_active (rt := Sample.runtime)
              (Sample.world_of (new_Page Sample.home_dev) None)
              [10000; 14000] 14999 eq_refl ltac:(discriminate)
              ltac:(repeat constructor) ltac:(reflexivity))
    as (Hact & Hstill).
  split; [reflexivity|]. split; [exact Hact|exact Hstill].
Defined.

(** X15 on the sample page, watched and inactive: three changes. *)
Lemma changes_not_coalesced_witness :
  let w := snd (init (rt := Sample.runtime) false
                  (Sample.world_of (new_Page Sample.home_dev)
                     (Some (Json Sample.built_artifact)))) in
  rebuilds (run (rt := Sample.runtime) (repeat FileChange 3) w) = []
  /\ rebuilds (elapse 100 (run (rt := Sample.runtime) (repeat FileChange 3) w))
     = repeat (EvScheduleBuild false) 3.
Proof.
  destruct (changes_not_coalesced (rt := Sample.runtime)
              (snd (init (rt := Sample.runtime) false
                      (Sample.world_of (new_Page Sample.home_dev)
                         (Some (Json Sample.built_artifact)))))
              3 ltac:(discriminate))
    as (_ & Hlater).
  destruct (Hlater eq_refl eq_refl eq_refl) as (Hnone & Hall).
  unfold rebuilds. rewrite Hnone, (Hall 100 ltac:(vm_compute; discriminate)).
  split; reflexivity.
Defined.

End ActivityFacts.

(** ** More on the registry *)

Module EngineMore.
Import JS Engine JSFacts.

Lemma has_app (k : string) (a b : obj) : has k (a ++ b) = (has k a || has k b)%bool.
Proof.
  induction a as [|[k0 v0] a IH]; simpl; [reflexivity|].
  destruct (String.eqb k k0); [reflexivity|exact IH].
Qed.

Lemma has_notin (k : string) (o : obj) : ~ In k (keys o) -> has k o = false.
Proof.
  induction o as [|[k0 v0] o IH]; simpl; intros Hnot; [reflexivity|].
  destruct (String.eqb_spec k k0) as [->|Hne]; [exfalso; auto|].
  apply IH. intros Hin. apply Hnot. right. exact Hin.
Qed.

Lemma set_fresh (k : string) (v : value) (o : obj) :
  has k o = false -> set k v o = o ++ [(k, v)].
Proof.
  induction o as [|[k0 v0] o IH]; simpl; intros Hnot; [reflexivity|].
  destruct (String.eqb k k0); [discriminate|]. rewrite IH by exact Hnot.
  reflexivity.
Qed.

Lemma get_here (k : string) (v : value) (pre suf : obj) :
  has k pre = false -> get k (pre ++ (k, v) :: suf) = v.
Proof.
  induction pre as [|[k0 v0] pre IH]; simpl; intros Hnot.
  - rewrite String.eqb_refl. reflexivity.
  - destruct (String.eqb k k0); [discriminate|]. apply IH, Hnot.
Qed.

(** The copy loop of lines 73-77 over the rest [suf] of the locals. *)
Lemma strip_loop (excludeLocals : list string) (suf : obj) :
  forall (pre acc : obj),
    List.NoDup (keys (pre ++ suf)) ->
    (forall k, In k (keys suf) -> has k acc = false) ->
    fold_left
      (fun sendLocals p =>
         if existsb (String.eqb p) excludeLocals
         then sendLocals
         else set p (get p (pre ++ suf)) sendLocals)
      (keys suf) acc
    = acc ++ List.filter
               (fun kv => negb (existsb (String.eqb (fst kv)) excludeLocals)) suf.
Proof.
  induction suf as [|[k v] suf IH]; intros pre acc Hnodup Hfresh; simpl.
  - rewrite app_nil_r. reflexivity.
  - assert (Hsplit : pre ++ (k, v) :: suf = (pre ++ [(k, v)]) ++ suf)
      by (rewrite <- app_assoc; reflexivity).
    unfold keys in Hnodup. rewrite map_app in Hnodup. simpl in Hnodup.
    assert (Hk_pre : ~ In k (map fst pre)).
    { intros Hin. apply List.NoDup_remove_2 in Hnodup. apply Hnodup.
      apply in_or_app. left. exact Hin. }
    assert (Hk_suf : ~ In k (map fst suf)).
    { intros Hin. apply List.NoDup_remove_2 in Hnodup. apply Hnodup.
      apply in_or_app. right. exact Hin. }
    assert (Hnodup' : List.NoDup (keys ((pre ++ [(k, v)]) ++ suf))).
    { unfold keys. rewrite !map_app. simpl. rewrite <- app_assoc. exact Hnodup. }
    rewrite (get_here k v pre suf (has_notin k pre Hk_pre)).
    rewrite Hsplit.
    destruct (existsb (String.eqb k) excludeLocals); simpl.
    + apply IH; [exact Hnodup'|].
      intros k' Hin. apply Hfresh. right. exact Hin.
    + rewrite (set_fresh k v acc) by (apply Hfresh; left; reflexivity).
      rewrite IH; [rewrite <- app_assoc; reflexivity|exact Hnodup'|].
      intros k' Hin. rewrite has_app, (Hfresh k') by (right; exact Hin). simpl.
      destruct (String.eqb_spec k' k) as [->|]; [now destruct Hk_suf|reflexivity].
Qed.

Lemma strip_is_filter (excludeLocals : list string) (locals : obj) :
  List.NoDup (keys locals) ->
  strip excludeLocals locals
  = List.filter (fun kv => negb (existsb (String.eqb (fst kv)) excludeLocals)) locals.
Proof.
  intros Hnodup. unfold strip.
  apply (strip_loop excludeLocals locals [] []); [exact Hnodup|reflexivity].
Qed.

Lemma strip_nothing (excludeLocals : list string) (locals : obj) :
  List.NoDup (keys locals) ->
  (forall k, In k excludeLocals -> has k locals = false) ->
  strip excludeLocals locals = locals.
Proof.
  intros Hnodup Hnone. rewrite strip_is_filter by exact Hnodup.
  clear Hnodup. induction locals as [|[k v] o IH]; simpl; [reflexivity|].
  assert (Hk : existsb (String.eqb k) excludeLocals = false).
  { destruct (existsb (String.eqb k) excludeLocals) eqn:Hex; [|reflexivity].
    apply existsb_exists in Hex. destruct Hex as (x & Hin & Heq).
    apply String.eqb_eq in Heq. subst x.
    specialize (Hnone k Hin). simpl in Hnone. rewrite String.eqb_refl in Hnone.
    discriminate. }
  rewrite Hk. simpl. rewrite IH; [reflexivity|].
  intros k' Hin. specialize (Hnone k' Hin). simpl in Hnone.
  destruct (String.eqb k' k); [discriminate|exact Hnone].
Qed.

(** X16: for an object (no key twice) the locals that are sent on are the
    caller's locals without the excluded keys, with the values and in the
    order the caller gave them; locals that have none of the excluded keys
    are sent on as they are; and stripping what is already stripped changes
    nothing. *)
Theorem strip_keeps_order (excludeLocals : list string) (locals : obj) :
  List.NoDup (keys locals) ->
  strip excludeLocals locals
  = List.filter (fun kv => negb (existsb (String.eqb (fst kv)) excludeLocals)) locals
  /\ ((forall k, In k excludeLocals -> has k locals = false) ->
      strip excludeLocals locals = locals)
  /\ strip excludeLocals (strip excludeLocals locals) = strip excludeLocals locals.
Proof.
  intros Hnodup. split; [apply strip_is_filter, Hnodup|].
  split; [apply strip_nothing, Hnodup|].
  apply strip_nothing.
  - rewrite strip_is_filter by exact Hnodup. unfold keys.
    clear -Hnodup. unfold keys in Hnodup.
    induction locals as [|[k v] o IH]; simpl; [constructor|].
    inversion Hnodup as [|? ? Hnot Hrest]; subst.
    destruct (negb (existsb (String.eqb k) excludeLocals)); simpl; [|auto].
    constructor; [|auto].
    intros Hin. apply Hnot. apply in_map_iff in Hin.
    destruct Hin as ([k' v'] & Heq & Hin). simpl in Heq. subst k'.
    apply filter_In in Hin. destruct Hin as [Hin _].
    apply in_map_iff. exists (k, v'). split; [reflexivity|exact Hin].
  - intros k Hin. destruct (EngineFacts.strip_lookup excludeLocals locals k) as [_ Hhas].
    rewrite Hhas.
    assert (Hex : existsb (String.eqb k) excludeLocals = true).
    { apply existsb_exists. exists k. split; [exact Hin|apply String.eqb_refl]. }
    rewrite Hex. apply andb_false_r.
Qed.

Section Registry.
Context {PageT : Type}.
Variable createPage : string -> PageT.
Variable page_render : PageT -> obj -> result string * PageT.
Variable excludeLocals : list string.

(** X17: a render touches no other entry of the registry, whatever its
    outcome; and for a path that has a page the constructor is not called:
    that page is the one rendered. *)
Theorem registry_other_paths (path : string) (locals : obj)
    (callback : option (cb_args -> result unit)) (pages0 : gmap string PageT) :
  (forall other,
      other <> path ->
      pages (render createPage page_render excludeLocals path locals callback pages0)
        !! other
      = pages0 !! other)
  /\ (forall pg (otherPage : string -> PageT),
        pages0 !! path = Some pg ->
        page_of createPage path pages0 = pg
        /\ render createPage page_render excludeLocals path locals callback pages0
           = render otherPage page_render excludeLocals path locals callback pages0).
Proof.
  split.
  - intros other Hne. unfold render, on_failure.
    destruct (page_render _ _) as [[doc|e] pg']; destruct callback as [cb|];
      try destruct (cb (CbResult doc)); simpl;
      rewrite ?lookup_delete_ne, ?lookup_insert_ne by congruence; reflexivity.
  - intros pg otherPage Hsome. unfold render, page_of. rewrite Hsome.
    split; reflexivity.
Qed.

(** X18: the callback is called inside the [try]: when the page renders
    and the callback throws on the document, the page is removed from the
    registry although its render succeeded, and the callback is called a
    second time, with what it threw; the call then resolves, or rejects
    with what the callback throws the second time. *)
Theorem callback_failure_evicts (path : string) (locals : obj)
    (cb : cb_args -> result unit) (pages0 : gmap string PageT)
    (doc : string) (pg' : PageT) (e : error) :
  page_render (page_of createPage path pages0) (strip excludeLocals locals)
  = (Ok doc, pg') ->
  cb (CbResult doc) = Throw e ->
  let out := render createPage page_render excludeLocals path locals (Some cb) pages0 in
  calls out = [CbResult doc; CbError e]
  /\ pages out !! path = None
  /\ returned out = match cb (CbError e) with
                    | Ok _ => Ok None
                    | Throw e' => Throw e'
                    end.
Proof.
  intros Hdoc Hcb out. unfold out, render, on_failure. rewrite Hdoc, Hcb. simpl.
  repeat split. apply lookup_delete_eq.
Qed.


End Registry.

(** X16 on locals as a web framework passes them. *)
Lemma strip_keeps_order_witness :
  strip excludeLocals_default
    [("settings", VObj []); ("title", VStr "Hi"); ("cache", VBool true);
     ("user", VStr "ann"); ("_locals", VObj [])]
  = [("title", VStr "Hi"); ("user", VStr "ann")]
  /\ strip excludeLocals_default [("title", VStr "Hi"); ("user", VStr "ann")]
     = [("title", VStr "Hi"); ("user", VStr "ann")].
Proof.
  destruct (strip_keeps_order excludeLocals_default
              [("settings", VObj []); ("title", VStr "Hi"); ("cache", VBool true);
               ("user", VStr "ann"); ("_locals", VObj [])])
    as (Hfilter & _ & _).
  { repeat constructor; simpl; intuition discriminate. }
  destruct (strip_keeps_order excludeLocals_default
              [("title", VStr "Hi"); ("user", VStr "ann")])
    as (_ & Hsame & _).
  { repeat constructor; simpl; intuition discriminate. }
  split; [exact Hfilter|].
  apply Hsame. intros k [<-|[<-|[<-|[]]]]; reflexivity.
Defined.

(** X17 on the sample registry: a failing render of one path leaves the
    page of another. *)
Lemma registry_other_paths_witness :
  let good := render Sample.createPage Sample.page_render excludeLocals_default
                "/app/pages/Home.html" Sample.hi None ∅ in
  let bad := render Sample.createPage Sample.page_render excludeLocals_default
               "/app/pages/Broken.html" Sample.hi None (pages good) in
  pages bad !! "/app/pages/Home.html" = pages good !! "/app/pages/Home.html".
Proof.
  intros good bad.
  destruct (registry_other_paths Sample.createPage Sample.page_render
              excludeLocals_default "/app/pages/Broken.html" Sample.hi None
              (pages good))
    as (Hframe & _).
  apply Hframe. discriminate.
Defined.

(** X18 on the sample registry, with a callback that fails on a
    document. *)
Lemma callback_failure_evicts_witness :
  let cb := fun a => match a with
                     | CbResult _ => Throw (Thrown "res.send failed")
                     | CbError _ => Ok tt
                     end in
  let out := render Sample.createPage Sample.page_render excludeLocals_default
               "/app/pages/Home.html" Sample.hi (Some cb) ∅ in
  length (calls out) = 2%nat
  /\ pages out !! "/app/pages/Home.html" = None
  /\ returned out = Ok None.
Proof.
  intros cb out.
  edestruct (callback_failure_evicts Sample.createPage Sample.page_render
               excludeLocals_default "/app/pages/Home.html" Sample.hi cb ∅)
    as (Hcalls & Hgone & Hret).
  { vm_compute. reflexivity. }
  { reflexivity. }
  fold out in Hcalls, Hgone, Hret.
  split; [rewrite Hcalls; reflexivity|]. split; [exact Hgone|exact Hret].
Defined.


End EngineMore.

(** ** The registry and its constructor *)

Module ConstructingFacts.
Import JS Engine.

(** With a constructor that returns, this is the registry's [render]. *)
Lemma render_constructed {PageT : Type} (createPage : string -> PageT)
    (page_render : PageT -> obj -> result string * PageT)
    (excludeLocals : list string) (path : string) (locals : obj)
    (callback : option (cb_args -> result unit)) (pages0 : gmap string PageT) :
  Constructing.render (fun p => Ok (createPage p)) page_render excludeLocals
    path locals callback pages0
  = render createPage page_render excludeLocals path locals callback pages0.
Proof.
  unfold Constructing.render, render, page_of.
  destruct (pages0 !! path); reflexivity.
Qed.

Section Registry.
Context {PageT : Type}.
Variable newPage : string -> result PageT.
Variable page_render : PageT -> obj -> result string * PageT.
Variable excludeLocals : list string.

(** X19: the result goes one way only, and a constructor that throws is
    no render failure.  When the path has a page, or has none and the
    constructor returns one: with a callback that does not throw, the
    callback is called exactly once, with the document or with the error,
    and the call itself resolves to [undefined]; without a callback nothing
    is called and the call returns the document or throws the error.  When
    the path has no page and the constructor throws, the call rejects with
    what the constructor threw, a callback is never called, and the
    registry is as it was. *)
Theorem render_reports_once (path : string) (locals : obj)
    (pages0 : gmap string PageT) :
  (forall pg,
      match pages0 !! path with
      | Some pg0 => Ok pg0
      | None => newPage path
      end = Ok pg ->
      let r := fst (page_render pg (strip excludeLocals locals)) in
      (forall cb : cb_args -> result unit,
          (forall a, cb a = Ok tt) ->
          let out := Constructing.render newPage page_render excludeLocals
                       path locals (Some cb) pages0 in
          returned out = Ok None
          /\ calls out
             = [match r with Ok doc => CbResult doc | Throw e => CbError e end])
      /\ (let out := Constructing.render newPage page_render excludeLocals
                       path locals None pages0 in
          calls out = []
          /\ returned out
             = match r with Ok doc => Ok (Some doc) | Throw e => Throw e end))
  /\ (forall e callback,
        pages0 !! path = None ->
        newPage path = Throw e ->
        Constructing.render newPage page_render excludeLocals path locals
          callback pages0
        = {| returned := Throw e; calls := []; pages := pages0 |}).
Proof.
  split.
  - intros pg Hmade r. subst r. split.
    + intros cb Hcb out. unfold out, Constructing.render, on_failure.
      rewrite Hmade.
      destruct (page_render _ _) as [[doc|e] pg']; simpl; rewrite Hcb; simpl;
        split; reflexivity.
    + unfold Constructing.render, on_failure. rewrite Hmade.
      destruct (page_render _ _) as [[doc|e] pg']; simpl; split; reflexivity.
  - intros e callback Hnone Hthrow. unfold Constructing.render.
    rewrite Hnone, Hthrow. reflexivity.
Qed.

End Registry.

(** X19 on the sample registry: a page whose render fails, and a path for
    which the constructor throws. *)
Lemma render_reports_once_witness :
  (let out := Constructing.render Cases.newPage Sample.page_render
                excludeLocals_default "/app/pages/Broken.html" Sample.hi
                (Some (fun _ => Ok tt)) ∅ in
   returned out = Ok None
   /\ calls out = [CbError (Thrown "Unexpected end of JSON input")])
  /\ Constructing.render Cases.newPage Sample.page_render
       excludeLocals_default "/elsewhere/Home.html" Sample.hi
       (Some (fun _ => Ok tt)) ∅
     = {| returned := Throw (Thrown "path is outside the views directory");
          calls := []; pages := ∅ |}.
Proof.
  destruct (render_reports_once Cases.newPage Sample.page_render
              excludeLocals_default "/app/pages/Broken.html" Sample.hi ∅)
    as (Hmade & _).
  destruct (render_reports_once Cases.newPage Sample.page_render
              excludeLocals_default "/elsewhere/Home.html" Sample.hi ∅)
    as (_ & Hthrown).
  split.
  - destruct (Hmade (Sample.createPage "/app/pages/Broken.html") eq_refl)
      as (Hcb & _).
    exact (Hcb (fun _ => Ok tt) (fun _ => eq_refl)).
  - exact (Hthrown (Thrown "path is outside the views directory")
             (Some (fun _ => Ok tt)) eq_refl eq_refl).
Defined.

End ConstructingFacts.

(** ** The payload as a template string *)

Module PayloadFacts.
Import JS.

(** X21: for the [templateString] payload format the JSON text has
    every backslash doubled and nothing else changed: the other
    characters, backticks and dollar signs included, stay as they are and
    in order, the text grows by one character for each backslash, a text
    without backslashes is unchanged, and the doubling of a concatenation
    is the concatenation of the doublings. *)
Theorem double_backslashes_only (s t : string) :
  let is_backslash := fun c => Ascii.eqb c "\"%char in
  double_backslashes (s +:+ t) = double_backslashes s +:+ double_backslashes t
  /\ String.length (double_backslashes s)
     = (String.length s
        + length (List.filter is_backslash (list_ascii_of_string s)))%nat
  /\ List.filter (fun c => negb (is_backslash c))
       (list_ascii_of_string (double_backslashes s))
     = List.filter (fun c => negb (is_backslash c)) (list_ascii_of_string s)
  /\ (List.filter is_backslash (list_ascii_of_string s) = [] ->
      double_backslashes s = s).
Proof.
  intros is_backslash. subst is_backslash. repeat split.
  - induction s as [|c s IH]; simpl; [reflexivity|].
    unfold String.app in *. simpl.
    destruct (Ascii.eqb c "\"); simpl; rewrite IH; reflexivity.
  - induction s as [|c s IH]; simpl; [reflexivity|].
    destruct (Ascii.eqb c "\"); simpl; rewrite IH; lia.
  - induction s as [|c s IH]; simpl; [reflexivity|].
    destruct (Ascii.eqb c "\") eqn:Hc; simpl; rewrite ?Hc; simpl; rewrite IH;
      reflexivity.
  - induction s as [|c s IH]; simpl; [reflexivity|].
    destruct (Ascii.eqb c "\"); simpl; [discriminate|].
    intros Hnone. rewrite IH by exact Hnone. reflexivity.
Qed.

End PayloadFacts.
